(** * Flipkart price alert bot: the monitoring cycle and its command handlers

    A shallow embedding of [flipkart_price_alert.py].  Python [str] values
    are sequences of code points, the JSON document [product_alerts.json]
    is an ordered association from user id to that user's list of alerts,
    and everything the program does to the outside (HTTP requests, Telegram
    messages, writes of the data file, the clock) goes through an explicit
    environment and is recorded as a list of events. *)

From Stdlib Require Import String Ascii.
From Stdlib Require Import List ZArith NArith Bool Lia.
From Stdlib Require Decimal.
Import ListNotations.

Set Implicit Arguments.

(** ** Python strings *)

(** A [str] is its sequence of Unicode code points. *)
Definition pystr := list N.

(** An ASCII literal of the source. *)
Definition lit (s : String.string) : pystr :=
  map N_of_ascii (String.list_ascii_of_string s).
Arguments lit s%_string.

Fixpoint str_eqb (a b : pystr) : bool :=
  match a, b with
  | [], [] => true
  | x :: a', y :: b' => N.eqb x y && str_eqb a' b'
  | _, _ => false
  end.

(** [str.isspace] on one character. *)
Definition isspace (c : N) : bool :=
  ((9 <=? c) && (c <=? 13) || (28 <=? c) && (c <=? 32)
   || (c =? 0x85) || (c =? 0xA0) || (c =? 0x1680)
   || (0x2000 <=? c) && (c <=? 0x200A)
   || (c =? 0x2028) || (c =? 0x2029) || (c =? 0x202F)
   || (c =? 0x205F) || (c =? 0x3000))%N.

Fixpoint lstrip (s : pystr) : pystr :=
  match s with
  | c :: rest => if isspace c then lstrip rest else s
  | [] => []
  end.

Definition rstrip (s : pystr) : pystr := rev (lstrip (rev s)).

(** [s.strip()] *)
Definition strip (s : pystr) : pystr := rstrip (lstrip s).

(** The characters [int] skips around a literal: C's [isspace] on ASCII
    (the separators U+001C to U+001F are not among them) and the Unicode
    spaces above ASCII. *)
Definition int_isspace (c : N) : bool :=
  ((9 <=? c) && (c <=? 13) || (c =? 32)
   || (c =? 0x85) || (c =? 0xA0) || (c =? 0x1680)
   || (0x2000 <=? c) && (c <=? 0x200A)
   || (c =? 0x2028) || (c =? 0x2029) || (c =? 0x202F)
   || (c =? 0x205F) || (c =? 0x3000))%N.

Fixpoint skip_spaces (s : pystr) : pystr :=
  match s with
  | c :: rest => if int_isspace c then skip_spaces rest else s
  | [] => []
  end.

Definition int_strip (s : pystr) : pystr :=
  rev (skip_spaces (rev (skip_spaces s))).

(** [needle in s] for strings. *)
Fixpoint startswith (prefix s : pystr) : bool :=
  match prefix, s with
  | [], _ => true
  | p :: prefix', c :: s' => N.eqb p c && startswith prefix' s'
  | _ :: _, [] => false
  end.

Fixpoint contains (needle s : pystr) : bool :=
  startswith needle s ||
  match s with
  | [] => false
  | _ :: s' => contains needle s'
  end.

Fixpoint uint_str (d : Decimal.uint) : pystr :=
  match d with
  | Decimal.Nil => []
  | Decimal.D0 d => 48%N :: uint_str d
  | Decimal.D1 d => 49%N :: uint_str d
  | Decimal.D2 d => 50%N :: uint_str d
  | Decimal.D3 d => 51%N :: uint_str d
  | Decimal.D4 d => 52%N :: uint_str d
  | Decimal.D5 d => 53%N :: uint_str d
  | Decimal.D6 d => 54%N :: uint_str d
  | Decimal.D7 d => 55%N :: uint_str d
  | Decimal.D8 d => 56%N :: uint_str d
  | Decimal.D9 d => 57%N :: uint_str d
  end.

(** [str(n)] for an [int]. *)
Definition str_of_int (n : Z) : pystr :=
  match Z.to_int n with
  | Decimal.Pos d => uint_str d
  | Decimal.Neg d => 45%N :: uint_str d
  end.

(** ** The parts of the Python runtime that are tables

    [str.isdigit] and the decimal value of a character come from the
    Unicode database of the interpreter; on ASCII they are fixed, above it
    they are taken from the runtime.  [max_str_digits] is the interpreter's
    limit on the length of a decimal literal given to [int] ([None] when
    there is none). *)
Record Runtime := {
  uni_isdigit : N -> bool;
  uni_decimal : N -> option N;
  max_str_digits : option nat;
  uni_digit_nonspace : forall c, uni_isdigit c = true -> isspace c = false
}.

(** A runtime whose database has no digit above ASCII, without length limit. *)
Definition ascii_runtime : Runtime :=
  {| uni_isdigit := fun _ => false;
     uni_decimal := fun _ => None;
     max_str_digits := None;
     uni_digit_nonspace := fun c (H : false = true) =>
       match H in (_ = b) return (if b then isspace c = false else True) with
       | eq_refl => I
       end |}.

Section Text.

Variable py : Runtime.

Definition ascii_digit (c : N) : bool := ((48 <=? c) && (c <=? 57))%N.

(** [str.isdigit] on one character. *)
Definition str_isdigit (c : N) : bool :=
  if (c <? 128)%N then ascii_digit c else uni_isdigit py c.

(** The decimal value [int] gives to a character, if any. *)
Definition digit_value (c : N) : option N :=
  if (c <? 128)%N then (if ascii_digit c then Some (c - 48)%N else None)
  else uni_decimal py c.

(** The digits of an [int] literal: decimal characters, with single
    underscores allowed between two of them. *)
Fixpoint int_digits (after_digit : bool) (s : pystr) : option (list N) :=
  match s with
  | [] => if after_digit then Some [] else None
  | c :: rest =>
      if (c =? 95)%N then
        (if after_digit then int_digits false rest else None)
      else
        match digit_value c with
        | Some d => option_map (cons d) (int_digits true rest)
        | None => None
        end
  end.

Definition horner (ds : list N) : Z :=
  fold_left (fun acc d => 10 * acc + Z.of_N d)%Z ds 0%Z.

Definition within_limit (ds : list N) : bool :=
  match max_str_digits py with
  | Some m => Nat.leb (length ds) m
  | None => true
  end.

(** [int(s)] for a [str]; [None] is [ValueError]. *)
Definition py_int (s : pystr) : option Z :=
  let s := int_strip s in
  let '(negative, body) :=
    match s with
    | 43%N :: r => (false, r)
    | 45%N :: r => (true, r)
    | _ => (false, s)
    end in
  match int_digits false body with
  | Some ds =>
      if within_limit ds
      then Some (if negative then (- horner ds)%Z else horner ds)
      else None
  | None => None
  end.

(** The decimal value of every character of a string, when each has one. *)
Fixpoint decimal_values (s : pystr) : option (list N) :=
  match s with
  | [] => Some []
  | c :: rest =>
      match digit_value c, decimal_values rest with
      | Some d, Some ds => Some (d :: ds)
      | _, _ => None
      end
  end.

(** The price as the interface of the fetcher words it: the plain integer
    left when every non-digit character of the price text is stripped. *)
Definition normalized_price (price_text : pystr) : option Z :=
  match decimal_values (filter str_isdigit price_text) with
  | Some (d :: ds) => Some (horner (d :: ds))
  | _ => None
  end.

(** ** Scraping *)

(** What the selectors of [get_product_details] find in a parsed page:
    the text of the first element matching each, and for the image
    element its [src] attribute, which may be absent. *)
Record Page := {
  sel_span_B_NuCI : option pystr;
  sel_h1_span : option pystr;
  sel_div_price : option pystr;
  sel_img : option (option pystr)
}.

(** The outcome of [requests.get], [raise_for_status] and the parse. *)
Inductive Response :=
| RequestFailed
| Parsed (soup : Page).

Record ProductDetails := {
  pd_name : pystr;
  pd_price : Z;
  pd_url : pystr;
  pd_image : option pystr
}.

(** The [try] block of [get_product_details], given what the request
    returns.  Every exception inside ends in the [except] clause, which
    returns [None]. *)
Definition scrape (resp : Response) (url : pystr) : option ProductDetails :=
  match resp with
  | RequestFailed => None
  | Parsed soup =>
      let product_name :=
        match sel_span_B_NuCI soup with
        | Some e => Some e
        | None => sel_h1_span soup
        end in
      let price_element := sel_div_price soup in
      match price_element, product_name with
      | Some price_el, Some name_el =>
          let price_text := strip price_el in
          match py_int (filter str_isdigit price_text) with
          | None => None
          | Some price =>
              match sel_img soup with
              | Some None => None
              | Some (Some src) =>
                  Some {| pd_name := strip name_el; pd_price := price;
                          pd_url := url; pd_image := Some src |}
              | None =>
                  Some {| pd_name := strip name_el; pd_price := price;
                          pd_url := url; pd_image := None |}
              end
          end
      | _, _ => None
      end
  end.

(** [extract_product_id]: [re.search(r'pid=([^&]+)', url)]. *)
Definition not_amp (c : N) : bool := negb (c =? 38)%N.

Fixpoint take_while (p : N -> bool) (s : pystr) : pystr :=
  match s with
  | c :: rest => if p c then c :: take_while p rest else []
  | [] => []
  end.

Fixpoint strip_prefix (prefix s : pystr) : option pystr :=
  match prefix, s with
  | [], _ => Some s
  | p :: prefix', c :: s' => if N.eqb p c then strip_prefix prefix' s' else None
  | _ :: _, [] => None
  end.

(** The pattern tried at the start of [s]; the group on a match. *)
Definition match_pid_here (s : pystr) : option pystr :=
  match strip_prefix (lit "pid=") s with
  | Some tl =>
      match take_while not_amp tl with
      | [] => None
      | g => Some g
      end
  | None => None
  end.

Fixpoint extract_product_id (url : pystr) : option pystr :=
  match match_pid_here url with
  | Some g => Some g
  | None =>
      match url with
      | [] => None
      | _ :: rest => extract_product_id rest
      end
  end.

End Text.


(** ** The alert collection *)

Module Alert.
(** One entry of a user's list in [product_alerts.json]. *)
Record t := mk {
  id : pystr;
  name : pystr;
  url : pystr;
  current_price : Z;
  target_price : Z;
  added_on : Z   (* the reading of [time.time()]; never inspected *)
}.

Definition set_current_price (p : Z) (a : t) : t :=
  {| id := id a; name := name a; url := url a; current_price := p;
     target_price := target_price a; added_on := added_on a |}.
End Alert.

Module UpdateInfo.
(** One entry of [user_updates]: a crossing to notify. *)
Record t := mk {
  name : pystr;
  old_price : Z;
  current_price : Z;
  target_price : Z;
  url : pystr
}.
End UpdateInfo.

(** The document: a [dict] from user id to list of alerts, in insertion
    order. *)
Definition Products := list (pystr * list Alert.t).

(** [products[k]] / [k in products] *)
Fixpoint dict_get (k : pystr) (d : Products) : option (list Alert.t) :=
  match d with
  | [] => None
  | (k', v) :: d' => if str_eqb k k' then Some v else dict_get k d'
  end.

(** [products[k] = v]: in place when the key is there, appended otherwise. *)
Fixpoint dict_set (k : pystr) (v : list Alert.t) (d : Products) : Products :=
  match d with
  | [] => [(k, v)]
  | (k', v') :: d' =>
      if str_eqb k k' then (k', v) :: d' else (k', v') :: dict_set k v d'
  end.

Definition keys (d : Products) : list pystr := map fst d.

(** [products[k]] where the key is known to be there. *)
Definition alerts_for (d : Products) (k : pystr) : list Alert.t :=
  match dict_get k d with
  | Some alerts => alerts
  | None => []
  end.

(** ** The environment *)

Inductive WriteOutcome :=
| Written      (* the file now holds the dumped document *)
| OpenFails    (* [open(DATA_FILE, 'w')] raises: the file is as before *)
| DumpFails.   (* [json.dump] raises midway: the file is truncated *)

(** What the outside answers to the [n]-th interaction of a run. *)
Record World := {
  http_get : nat -> pystr -> Response;
  send_message_ok : nat -> pystr -> pystr -> bool;
  reply_text_ok : nat -> pystr -> bool;
  file_write : nat -> WriteOutcome;
  time_time : nat -> Z
}.

Inductive Disk :=
| NoFile
| Stored (products : Products)
| Damaged.

Record Sys := {
  clock : nat;   (* interactions so far *)
  disk : Disk    (* [product_alerts.json] *)
}.

(** The ids of a user's alerts in the file. *)
Definition stored_ids (d : Disk) (k : pystr) : list pystr :=
  match d with
  | Stored products => map Alert.id (alerts_for products k)
  | _ => []
  end.

(** The file after a call of [save_products]. *)
Definition disk_after (outcome : WriteOutcome) (products : Products) (old : Disk)
  : Disk :=
  match outcome with
  | Written => Stored products
  | OpenFails => old
  | DumpFails => Damaged
  end.

(** What [load_products] returns on a file; [None] when it raises. *)
Definition loaded (d : Disk) : option Products :=
  match d with
  | NoFile => Some []
  | Stored products => Some products
  | Damaged => None
  end.

(** [specific_users if specific_users else products.keys()] *)
Definition users_to_check (specific_users : option (list pystr))
    (products : Products) : list pystr :=
  match specific_users with
  | Some (u :: us) => u :: us
  | _ => keys products
  end.

(** What a run does to the outside, in order: a page request; a call of
    [context.bot.send_message] with its chat, its text, the [user_updates]
    the text was built from, and whether it went through; a call of
    [reply_text]; a call of [save_products] with the collection given and
    what became of the write. *)
Inductive Event :=
| EvGet (url : pystr)
| EvSend (chat_id text : pystr) (crossings : list UpdateInfo.t) (delivered : bool)
| EvReply (text : pystr) (delivered : bool)
| EvSave (products : Products) (outcome : WriteOutcome).

(** ** Computations: state, events, exceptions *)

Inductive Outcome (A : Type) :=
| Return (a : A)
| Raise.
Arguments Raise {A}.

Definition M (A : Type) := Sys -> Outcome A * Sys * list Event.

Definition ret {A} (a : A) : M A := fun s => (Return a, s, []).

Definition bind {A B} (m : M A) (f : A -> M B) : M B :=
  fun s =>
    match m s with
    | (Return a, s1, e1) =>
        let '(r, s2, e2) := f a s1 in (r, s2, e1 ++ e2)
    | (Raise, s1, e1) => (Raise, s1, e1)
    end.

Notation "x <- m ;; k" := (bind m (fun x => k))
  (at level 61, m at next level, right associativity).
Notation "' pat <- m ;; k" := (bind m (fun x => match x with pat => k end))
  (at level 61, pat pattern, m at next level, right associativity).

Definition tick (s : Sys) : Sys := {| clock := S (clock s); disk := disk s |}.

(** ** Message texts

    The non-ASCII characters of the literals, as the source file has them. *)
Definition nl : pystr := [10%N].
Definition rupee : pystr := [0xE2; 0x201A; 0xB9]%N.
Definition check_mark : pystr := [0xE2; 0x153; 0x2026]%N.
Definition cross_mark : pystr := [0xE2; 0x152]%N.
Definition bell : pystr := [0xF0; 0x178; 0x201D; 0x201D]%N.
Definition cart : pystr := [0xF0; 0x178; 0x203A; 0x2019]%N.

Definition update_lines (u : UpdateInfo.t) : pystr :=
  cart ++ lit " " ++ UpdateInfo.name u ++ nl
  ++ lit "   Old Price: " ++ rupee ++ str_of_int (UpdateInfo.old_price u) ++ nl
  ++ lit "   Current Price: " ++ rupee
       ++ str_of_int (UpdateInfo.current_price u) ++ lit " " ++ check_mark ++ nl
  ++ lit "   Target Price: " ++ rupee
       ++ str_of_int (UpdateInfo.target_price u) ++ nl
  ++ lit "   Link: " ++ UpdateInfo.url u ++ nl ++ nl.

Definition alert_message (user_updates : list UpdateInfo.t) : pystr :=
  fold_left (fun message u => message ++ update_lines u) user_updates
    (bell ++ lit " Price Alert! The following products have reached your target price:"
     ++ nl ++ nl).

Definition msg_usage_add : pystr :=
  lit "Please provide a Flipkart URL and target price. Example: /add https://www.flipkart.com/product-page 1000".
Definition msg_invalid_price : pystr :=
  lit "Invalid price. Please provide a numeric value.".
Definition msg_invalid_url : pystr := lit "Please provide a valid Flipkart URL.".
Definition msg_fetching : pystr := lit "Fetching product details, please wait...".
Definition msg_fetch_failed : pystr :=
  lit "Failed to fetch product details. Please check the URL and try again.".
Definition msg_added (pd : ProductDetails) (target_price : Z) : pystr :=
  check_mark ++ lit " Price alert added!" ++ nl ++ nl
  ++ lit "Product: " ++ pd_name pd ++ nl
  ++ lit "Current Price: " ++ rupee ++ str_of_int (pd_price pd) ++ nl
  ++ lit "Target Price: " ++ rupee ++ str_of_int target_price ++ nl ++ nl
  ++ lit "You will be notified when the price drops below your target.".
Definition msg_usage_remove : pystr :=
  lit "Please provide the alert ID to remove. Use /list to see all your alerts with IDs.".
Definition msg_no_alerts : pystr := lit "You have no active price alerts.".
Definition msg_removed (removed_alert : Alert.t) : pystr :=
  check_mark ++ lit " Price alert removed: " ++ Alert.name removed_alert.
Definition msg_not_found (alert_id : pystr) : pystr :=
  cross_mark ++ lit " No price alert found with ID: " ++ alert_id.
Definition msg_checking : pystr :=
  lit "Checking prices for your alerts, please wait...".

(** ** The program *)

Section Bot.

Variable py : Runtime.
Variable W : World.

(** [requests.get(url, headers=headers, timeout=10)] up to the parsed page. *)
Definition requests_get (url : pystr) : M Response :=
  fun s => (Return (http_get W (clock s) url), tick s, [EvGet url]).

Definition get_product_details (url : pystr) : M (option ProductDetails) :=
  resp <- requests_get url ;;
  ret (scrape py resp url).

(** What the fetch made at state [s] for [url] returns. *)
Definition fetched (s : Sys) (url : pystr) : option ProductDetails :=
  scrape py (http_get W (clock s) url) url.

(** [context.bot.send_message] inside its [try]: a failure is logged and
    swallowed. *)
Definition send_message (chat_id text : pystr) (crossings : list UpdateInfo.t)
  : M unit :=
  fun s =>
    (Return tt, tick s,
     [EvSend chat_id text crossings (send_message_ok W (clock s) chat_id text)]).

(** [update.message.reply_text]: not guarded, a failure propagates. *)
Definition reply_text (text : pystr) : M unit :=
  fun s =>
    let ok := reply_text_ok W (clock s) text in
    (if ok then Return tt else Raise, tick s, [EvReply text ok]).

Definition load_products : M Products :=
  fun s =>
    match disk s with
    | NoFile => (Return [], s, [])
    | Stored products => (Return products, s, [])
    | Damaged => (Raise, s, [])
    end.

Definition save_products (products : Products) : M unit :=
  fun s =>
    let outcome := file_write W (clock s) in
    (match outcome with Written => Return tt | _ => Raise end,
     {| clock := S (clock s); disk := disk_after outcome products (disk s) |},
     [EvSave products outcome]).

Definition now : M Z :=
  fun s => (Return (time_time W (clock s)), tick s, []).

(** *** [check_all_prices] *)

(** The body of the loop over a user's alerts, once
    [get_product_details] has returned.  [alert] is the very dictionary
    stored at [products[user_id][i]], so the assignment to
    [products[user_id][i]['current_price']] is seen through [alert] too.
    Gives the alert as it is afterwards and the entry appended to
    [user_updates], if one is. *)
Definition after_fetch (alert : Alert.t) (product_details : option ProductDetails)
  : Alert.t * option UpdateInfo.t :=
  match product_details with
  | None => (alert, None)
  | Some product_details =>
      let current_price := pd_price product_details in
      let old_price := Alert.current_price alert in
      let alert := Alert.set_current_price current_price alert in
      if (current_price <=? Alert.target_price alert)%Z
         && (old_price >? Alert.target_price alert)%Z
      then (alert,
            Some {| UpdateInfo.name := Alert.name alert;
                    UpdateInfo.old_price := old_price;
                    UpdateInfo.current_price := current_price;
                    UpdateInfo.target_price := Alert.target_price alert;
                    UpdateInfo.url := Alert.url alert |})
      else (alert, None)
  end.

Definition check_alert (alert : Alert.t) : M (Alert.t * option UpdateInfo.t) :=
  product_details <- get_product_details (Alert.url alert) ;;
  ret (after_fetch alert product_details).

(** [for i, alert in enumerate(products[user_id])] *)
Fixpoint check_alerts (alerts : list Alert.t) (user_updates : list UpdateInfo.t)
  : M (list Alert.t * list UpdateInfo.t) :=
  match alerts with
  | [] => ret ([], user_updates)
  | alert :: rest =>
      '(alert, hit) <- check_alert alert ;;
      let user_updates :=
        match hit with
        | Some u => user_updates ++ [u]
        | None => user_updates
        end in
      '(rest, user_updates) <- check_alerts rest user_updates ;;
      ret (alert :: rest, user_updates)
  end.

(** The body of the loop over [users_to_check]. *)
Definition check_user (user_id : pystr) (products : Products)
    (updates_found : bool) : M (Products * bool) :=
  match dict_get user_id products with
  | None => ret (products, updates_found)
  | Some alerts =>
      '(alerts, user_updates) <- check_alerts alerts [] ;;
      let products := dict_set user_id alerts products in
      match user_updates with
      | [] => ret (products, updates_found)
      | _ :: _ =>
          let updates_found := true in
          _ <- send_message user_id (alert_message user_updates) user_updates ;;
          ret (products, updates_found)
      end
  end.

Fixpoint check_users (users_to_check : list pystr) (products : Products)
    (updates_found : bool) : M (Products * bool) :=
  match users_to_check with
  | [] => ret (products, updates_found)
  | user_id :: rest =>
      '(products, updates_found) <- check_user user_id products updates_found ;;
      check_users rest products updates_found
  end.

Definition check_all_prices (specific_users : option (list pystr)) : M bool :=
  products <- load_products ;;
  let updates_found := false in
  let users_to_check := users_to_check specific_users products in
  '(products, updates_found) <- check_users users_to_check products updates_found ;;
  if updates_found
  then _ <- save_products products ;; ret true
  else ret false.

(** The handler awaits the cycle and drops what it returns. *)
Definition check_prices (user_id : pystr) : M unit :=
  _ <- reply_text msg_checking ;;
  _ <- check_all_prices (Some [user_id]) ;;
  ret tt.

Definition scheduled_price_check : M unit :=
  _ <- check_all_prices None ;;
  ret tt.

(** *** [add_product] *)

Definition add_product (user_id : pystr) (args : list pystr) : M unit :=
  match args with
  | url :: price_arg :: _ =>
      match py_int py price_arg with
      | None => reply_text msg_invalid_price
      | Some target_price =>
          if negb (contains (lit "flipkart.com") url)
          then reply_text msg_invalid_url
          else
            _ <- reply_text msg_fetching ;;
            product_details <- get_product_details url ;;
            match product_details with
            | None => reply_text msg_fetch_failed
            | Some product_details =>
                products <- load_products ;;
                let products :=
                  match dict_get user_id products with
                  | None => dict_set user_id [] products
                  | Some _ => products
                  end in
                let alerts := alerts_for products user_id in
                let product_id :=
                  match extract_product_id url with
                  | Some (c :: g) => c :: g
                  | _ => str_of_int (Z.of_nat (length alerts))
                  end in
                added_on <- now ;;
                let alert :=
                  {| Alert.id := product_id;
                     Alert.name := pd_name product_details;
                     Alert.url := url;
                     Alert.current_price := pd_price product_details;
                     Alert.target_price := target_price;
                     Alert.added_on := added_on |} in
                let products := dict_set user_id (alerts ++ [alert]) products in
                _ <- save_products products ;;
                reply_text (msg_added product_details target_price)
            end
      end
  | _ => reply_text msg_usage_add
  end.

(** *** [remove_product] *)

(** The search loop with its [pop(i)] and [break]: the alert removed and
    the list without it. *)
Fixpoint pop_first (alert_id : pystr) (alerts : list Alert.t)
  : option (Alert.t * list Alert.t) :=
  match alerts with
  | [] => None
  | alert :: rest =>
      if str_eqb (Alert.id alert) alert_id then Some (alert, rest)
      else
        match pop_first alert_id rest with
        | Some (removed_alert, rest') => Some (removed_alert, alert :: rest')
        | None => None
        end
  end.

Definition remove_product (user_id : pystr) (args : list pystr) : M unit :=
  match args with
  | [] => reply_text msg_usage_remove
  | alert_id :: _ =>
      products <- load_products ;;
      match dict_get user_id products with
      | None | Some [] => reply_text msg_no_alerts
      | Some alerts =>
          match pop_first alert_id alerts with
          | Some (removed_alert, alerts) =>
              let products := dict_set user_id alerts products in
              _ <- save_products products ;;
              reply_text (msg_removed removed_alert)
          | None => reply_text (msg_not_found alert_id)
          end
      end
  end.

End Bot.

(** ** Observations on runs *)

Definition result_of {A} (x : Outcome A * Sys * list Event) : Outcome A :=
  fst (fst x).
Definition state_of {A} (x : Outcome A * Sys * list Event) : Sys :=
  snd (fst x).
Definition events_of {A} (x : Outcome A * Sys * list Event) : list Event :=
  snd x.

(** The alerts and the [user_updates] a run of the alert loop ends with. *)
Definition alerts_of (x : Outcome (list Alert.t * list UpdateInfo.t) * Sys * list Event)
  : list Alert.t :=
  match result_of x with
  | Return (alerts, _) => alerts
  | Raise => []
  end.
Definition updates_of (x : Outcome (list Alert.t * list UpdateInfo.t) * Sys * list Event)
  : list UpdateInfo.t :=
  match result_of x with
  | Return (_, user_updates) => user_updates
  | Raise => []
  end.

(** The alert and the appended entry one iteration ends with. *)
Definition alert_of (x : Outcome (Alert.t * option UpdateInfo.t) * Sys * list Event)
  : option Alert.t :=
  match result_of x with
  | Return (alert, _) => Some alert
  | Raise => None
  end.
Definition hit_of (x : Outcome (Alert.t * option UpdateInfo.t) * Sys * list Event)
  : option UpdateInfo.t :=
  match result_of x with
  | Return (_, hit) => hit
  | Raise => None
  end.

Definition products_of (x : Outcome (Products * bool) * Sys * list Event)
  : option Products :=
  match result_of x with
  | Return (products, _) => Some products
  | Raise => None
  end.

Definition opt_list {A} (o : option A) : list A :=
  match o with
  | Some a => [a]
  | None => []
  end.

Definition is_send (e : Event) : bool :=
  match e with EvSend _ _ _ _ => true | _ => false end.
Definition is_save (e : Event) : bool :=
  match e with EvSave _ _ => true | _ => false end.
Definition is_get (e : Event) : bool :=
  match e with EvGet _ => true | _ => false end.

(** Dispatch attempts, save calls, and crossings notified in a run. *)
Definition sends (evs : list Event) : nat := length (filter is_send evs).
Definition saves (evs : list Event) : nat := length (filter is_save evs).
Definition crossings_of (e : Event) : list UpdateInfo.t :=
  match e with EvSend _ _ crossings _ => crossings | _ => [] end.
Definition crossings (evs : list Event) : list UpdateInfo.t :=
  flat_map crossings_of evs.
Definition fetched_urls (evs : list Event) : list pystr :=
  flat_map (fun e => match e with EvGet url => [url] | _ => [] end) evs.

(** The state in which the alert that follows [pre] in a user's list is
    reached. *)
Definition reached (py : Runtime) (W : World) (pre : list Alert.t) (s : Sys) : Sys :=
  state_of (check_alerts py W pre [] s).

(** The same world with other answers of the bot API to [send_message],
    or of the file system to writes. *)
Definition with_send (f : nat -> pystr -> pystr -> bool) (W : World) : World :=
  {| http_get := http_get W; send_message_ok := f;
     reply_text_ok := reply_text_ok W; file_write := file_write W;
     time_time := time_time W |}.


(** An event with the outcome of the delivery forgotten: what was
    attempted. *)
Definition attempt (e : Event) : Event :=
  match e with
  | EvSend chat_id text crossings _ => EvSend chat_id text crossings true
  | _ => e
  end.

(** The events a pass over users may emit: page requests, and messages
    that carry at least one crossing. *)
Definition scan_event (e : Event) : Prop :=
  match e with
  | EvGet _ => True
  | EvSend _ _ (_ :: _) _ => True
  | _ => False
  end.

(** The urls of a user's alerts, in stored order. *)
Definition urls_in (products : Products) (user_id : pystr) : list pystr :=
  match dict_get user_id products with
  | Some alerts => map Alert.url alerts
  | None => []
  end.

(** The page requests a pass over [users] has to make. *)
Definition expected_urls (users : list pystr) (products : Products) : list pystr :=
  flat_map (urls_in products) users.

(** What a pass over one user, or over several, always satisfies: it
    returns; the file is not touched; it emits page requests and non-empty
    messages only; [updates_found] becomes true exactly when a message is
    attempted; the urls of every list stay what they were; and the pages
    requested are those of the users' alerts. *)
Definition pass_ok (users : list pystr) (products : Products) (f : bool)
    (s : Sys) (x : Outcome (Products * bool) * Sys * list Event) : Prop :=
  exists products' f' s' evs,
    x = (Return (products', f'), s', evs)
    /\ disk s' = disk s
    /\ Forall scan_event evs
    /\ f' = f || existsb is_send evs
    /\ (forall k, urls_in products' k = urls_in products k)
    /\ fetched_urls evs = expected_urls users products.

(** Two runs that differ at most in which deliveries succeeded. *)
Definition same_attempts {A} (x y : Outcome A * Sys * list Event) : Prop :=
  result_of x = result_of y
  /\ state_of x = state_of y
  /\ map attempt (events_of x) = map attempt (events_of y).

(** ** A small world to run the program in *)

Module Sample.

Definition page (name price_text : pystr) : Page :=
  {| sel_span_B_NuCI := Some name; sel_h1_span := None;
     sel_div_price := Some price_text; sel_img := None |}.

(** Every request is answered with the same page. *)
Definition shop (name price_text : pystr) : World :=
  {| http_get := fun _ _ => Parsed (page name price_text);
     send_message_ok := fun _ _ _ => true;
     reply_text_ok := fun _ _ => true;
     file_write := fun _ => Written;
     time_time := fun n => (1700000000 + Z.of_nat n)%Z |}.

Definition phone_url : pystr :=
  lit "https://www.flipkart.com/phone/p/itm1?pid=MOBXYZ&lid=L1".

Definition phone (cur target : Z) : Alert.t :=
  {| Alert.id := lit "MOBXYZ"; Alert.name := lit "Phone";
     Alert.url := phone_url; Alert.current_price := cur;
     Alert.target_price := target; Alert.added_on := 1700000000%Z |}.

(** The price text of a page: a rupee sign and the amount. *)
Definition rupees (amount : pystr) : pystr := 0x20B9%N :: amount.

(** The shop lists the phone, renamed, at 950. *)
Definition cheap : World := shop (lit "Phone X") (rupees (lit "950")).

Definition cheap_details : ProductDetails :=
  {| pd_name := lit "Phone X"; pd_price := 950; pd_url := phone_url;
     pd_image := None |}.


(** The same shop when Telegram refuses every message. *)
Definition muted : World := with_send (fun _ _ _ => false) cheap.

Definition alice : pystr := lit "1001".
Definition bob : pystr := lit "1002".

Definition start (d : Disk) : Sys := {| clock := 0; disk := d |}.

(** Alice tracks the phone, last seen at 1200, with target 1000. *)
Definition one_alert : Sys := start (Stored [(alice, [phone 1200 1000])]).

Definition carol : pystr := lit "1003".

(** Three users track the phone: Bob saw it below his target already,
    Alice has a second alert with a target the shop's price does not
    reach, and Carol's alert is like Alice's first one. *)
Definition three_users : Products :=
  [(bob, [phone 900 1000]);
   (alice, [phone 900 800; phone 1200 1000]);
   (carol, [phone 1200 1000])].

(** The crossing the phone's drop to 950 makes. *)
Definition drop : UpdateInfo.t :=
  {| UpdateInfo.name := lit "Phone"; UpdateInfo.old_price := 1200;
     UpdateInfo.current_price := 950; UpdateInfo.target_price := 1000;
     UpdateInfo.url := phone_url |}.

End Sample.


(** ** The pid query parameter, in the specification's words

    The query of a url is what follows its first question mark, up to a
    hash sign; its parameters are separated by ampersands; the pid
    parameter is the first one named [pid]. *)
Fixpoint split_on (sep : N) (s : pystr) : list pystr :=
  match s with
  | [] => [[]]
  | c :: rest =>
      if (c =? sep)%N then [] :: split_on sep rest
      else
        match split_on sep rest with
        | piece :: pieces => (c :: piece) :: pieces
        | [] => [[c]]
        end
  end.

Fixpoint after_first (sep : N) (s : pystr) : pystr :=
  match s with
  | [] => []
  | c :: rest => if (c =? sep)%N then rest else after_first sep rest
  end.

Definition url_query (url : pystr) : pystr :=
  take_while (fun c => negb (c =? 35)%N) (after_first 63%N url).

Fixpoint first_value (name : pystr) (parameters : list pystr) : option pystr :=
  match parameters with
  | [] => None
  | parameter :: rest =>
      match strip_prefix (name ++ [61%N]) parameter with
      | Some value => Some value
      | None => first_value name rest
      end
  end.

Definition spec_pid_query_parameter (url : pystr) : option pystr :=
  first_value (lit "pid") (split_on 38%N (url_query url)).

(** The replies by which [remove_product] tells the caller that nothing
    was there to remove: no alert with that id, or no alert at all. *)
Definition not_found_report (alert_id text : pystr) : Prop :=
  text = msg_not_found alert_id \/ text = msg_no_alerts.

(** ** The other handlers *)

Definition msg_welcome : pystr :=
  lit "Welcome to Flipkart Price Alert Bot!" ++ nl ++ nl
  ++ lit "Commands:" ++ nl
  ++ lit "/add <Flipkart URL> <target price> - Add a new price alert" ++ nl
  ++ lit "/list - List all your price alerts" ++ nl
  ++ lit "/remove <alert id> - Remove a price alert" ++ nl
  ++ lit "/check - Manually check all your price alerts".

(** The four lines [list_products] adds for the alert at index [i]. *)
Definition listing_lines (i : nat) (alert : Alert.t) : pystr :=
  str_of_int (Z.of_nat i + 1) ++ lit ". " ++ Alert.name alert ++ nl
  ++ lit "   Current Price: " ++ rupee
       ++ str_of_int (Alert.current_price alert) ++ nl
  ++ lit "   Target Price: " ++ rupee
       ++ str_of_int (Alert.target_price alert) ++ nl
  ++ lit "   ID: " ++ Alert.id alert ++ nl ++ nl.

(** [for i, alert in enumerate(products[user_id])], from index [i] on. *)
Fixpoint listing (i : nat) (alerts : list Alert.t) (message : pystr) : pystr :=
  match alerts with
  | [] => message
  | alert :: rest => listing (S i) rest (message ++ listing_lines i alert)
  end.

Definition msg_listing_header : pystr :=
  lit "Your active price alerts:" ++ nl ++ nl.

Section Handlers.

Variable W : World.

(** [start], also bound to [/help]. *)
Definition start : M unit := reply_text W msg_welcome.

Definition list_products (user_id : pystr) : M unit :=
  products <- load_products ;;
  match dict_get user_id products with
  | None | Some [] => reply_text W msg_no_alerts
  | Some alerts => reply_text W (listing 0 alerts msg_listing_header)
  end.

End Handlers.

(** The job queue calling [scheduled_price_check] [n] times in a row;
    the events of all the cycles, in order, and the state they end in. *)
Fixpoint repeat_check (py : Runtime) (W : World) (n : nat) (s : Sys)
  : Sys * list Event :=
  match n with
  | O => (s, [])
  | S n' =>
      let x := scheduled_price_check py W s in
      let '(s', evs) := repeat_check py W n' (state_of x) in
      (s', events_of x ++ evs)
  end.

(** The id [add_product] gives to the alert it appends. *)
Definition new_id (url : pystr) (products : Products) (user_id : pystr) : pystr :=
  match extract_product_id url with
  | Some pid => pid
  | None => str_of_int (Z.of_nat (length (alerts_for products user_id)))
  end.

(** ** Shapes of collections *)

(** An alert with its current price blanked: everything a cycle must not
    touch. *)
Definition frozen (a : Alert.t) : Alert.t := Alert.set_current_price 0 a.

(** A collection with every current price blanked. *)
Definition shape (products : Products) : list (pystr * list Alert.t) :=
  map (fun kv => (fst kv, map frozen (snd kv))) products.

(** The alert's last seen price is at or below its target. *)
Definition settled (a : Alert.t) : Prop :=
  (Alert.current_price a <= Alert.target_price a)%Z.

(** Every alert of the user is settled. *)
Definition all_settled (products : Products) (user_id : pystr) : Prop :=
  Forall settled (alerts_for products user_id).

(** The chats a run tried to send a message to, in order. *)
Definition chats (evs : list Event) : list pystr :=
  flat_map (fun e => match e with EvSend chat_id _ _ _ => [chat_id] | _ => [] end) evs.

(** ** Facts about strings *)

Lemma str_eqb_eq (a b : pystr) : str_eqb a b = true <-> a = b.
Proof.
  revert b; induction a as [|x a IH]; intros [|y b]; simpl;
    try (split; [discriminate | intros E; inversion E]);
    try (split; reflexivity).
  rewrite andb_true_iff, N.eqb_eq, IH.
  split; [intros [-> ->]; reflexivity | intros E; inversion E; auto].
Qed.

Lemma str_eqb_refl (a : pystr) : str_eqb a a = true.
Proof. apply str_eqb_eq; reflexivity. Qed.

Lemma str_eqb_neq (a b : pystr) : str_eqb a b = false <-> a <> b.
Proof.
  rewrite <- str_eqb_eq. destruct (str_eqb a b); split; congruence.
Qed.

Lemma ascii_digit_range (c : N) :
  ascii_digit c = true <-> (48 <= c <= 57)%N.
Proof.
  unfold ascii_digit. rewrite andb_true_iff, !N.leb_le. tauto.
Qed.

Lemma ascii_digit_nonspace (c : N) : ascii_digit c = true -> isspace c = false.
Proof.
  intros H; apply ascii_digit_range in H.
  assert (E : exists k, (k < 10)%nat /\ c = (48 + N.of_nat k)%N).
  { exists (N.to_nat (c - 48)); split; lia. }
  destruct E as (k & Hk & ->).
  do 10 (destruct k as [|k]; [reflexivity|]). lia.
Qed.

Section TextFacts.

Variable py : Runtime.

Lemma str_isdigit_nonspace (c : N) : str_isdigit py c = true -> isspace c = false.
Proof.
  unfold str_isdigit. destruct (c <? 128)%N.
  - apply ascii_digit_nonspace.
  - apply uni_digit_nonspace.
Qed.

Lemma str_isdigit_ascii (c : N) :
  (c < 128)%N -> str_isdigit py c = ascii_digit c.
Proof. intros H. unfold str_isdigit. apply N.ltb_lt in H. now rewrite H. Qed.

Lemma lstrip_digits (s : pystr) :
  Forall (fun c => str_isdigit py c = true) s -> lstrip s = s.
Proof.
  intros H; destruct H as [|c s Hc _]; simpl; [reflexivity|].
  now rewrite (str_isdigit_nonspace _ Hc).
Qed.

Lemma int_isspace_isspace (c : N) : int_isspace c = true -> isspace c = true.
Proof.
  unfold int_isspace, isspace.
  rewrite !orb_true_iff, !andb_true_iff, !N.leb_le, !N.eqb_eq. lia.
Qed.

Lemma skip_spaces_digits (s : pystr) :
  Forall (fun c => str_isdigit py c = true) s -> skip_spaces s = s.
Proof.
  intros H; destruct H as [|c s Hc _]; simpl; [reflexivity|].
  destruct (int_isspace c) eqn:E; [|reflexivity].
  apply int_isspace_isspace in E.
  rewrite (str_isdigit_nonspace _ Hc) in E. discriminate E.
Qed.

Lemma int_strip_digits (s : pystr) :
  Forall (fun c => str_isdigit py c = true) s -> int_strip s = s.
Proof.
  intros H. unfold int_strip. rewrite (skip_spaces_digits H).
  rewrite skip_spaces_digits; [apply rev_involutive|].
  apply Forall_forall; intros c Hc. apply In_rev in Hc.
  revert c Hc; now apply Forall_forall.
Qed.

Lemma strip_digits (s : pystr) :
  Forall (fun c => str_isdigit py c = true) s -> strip s = s.
Proof.
  intros H. unfold strip, rstrip. rewrite (lstrip_digits H).
  rewrite lstrip_digits; [apply rev_involutive|].
  apply Forall_forall; intros c Hc. apply In_rev in Hc.
  revert c Hc; now apply Forall_forall.
Qed.

Lemma filter_isdigit_all (s : pystr) :
  Forall (fun c => str_isdigit py c = true) (filter (str_isdigit py) s).
Proof. apply Forall_forall; intros c Hc; now apply filter_In in Hc. Qed.

(** Digit characters are not spaces, so stripping first changes nothing
    of what the filter keeps. *)
Lemma filter_isdigit_lstrip (s : pystr) :
  filter (str_isdigit py) (lstrip s) = filter (str_isdigit py) s.
Proof.
  induction s as [|c s IH]; simpl; [reflexivity|].
  destruct (isspace c) eqn:Hsp; [|reflexivity].
  rewrite IH. destruct (str_isdigit py c) eqn:Hd; [|reflexivity].
  apply str_isdigit_nonspace in Hd; congruence.
Qed.

Lemma filter_rev {A} (f : A -> bool) (l : list A) :
  filter f (rev l) = rev (filter f l).
Proof.
  induction l as [|a l IH]; simpl; [reflexivity|].
  rewrite filter_app, IH; simpl. destruct (f a); simpl;
    [reflexivity | now rewrite app_nil_r].
Qed.

Lemma filter_isdigit_strip (s : pystr) :
  filter (str_isdigit py) (strip s) = filter (str_isdigit py) s.
Proof.
  unfold strip, rstrip.
  rewrite filter_rev, filter_isdigit_lstrip, filter_rev, rev_involutive.
  apply filter_isdigit_lstrip.
Qed.

Lemma int_digits_of_digits (s : pystr) (b : bool) :
  Forall (fun c => str_isdigit py c = true) s ->
  int_digits py b s =
    match s with
    | [] => if b then Some [] else None
    | _ :: _ => decimal_values py s
    end.
Proof.
  intros H; revert b; induction H as [|c s Hc Hs IH]; intros b; [reflexivity|].
  simpl. assert (E : (c =? 95)%N = false).
  { apply N.eqb_neq; intros ->. discriminate Hc. }
  rewrite E. destruct (digit_value py c) as [d|]; [|reflexivity].
  rewrite IH. destruct s as [|c' s']; [reflexivity|].
  destruct (decimal_values py (c' :: s')); reflexivity.
Qed.

Lemma horner_nonneg_from (ds : list N) (acc : Z) :
  (0 <= acc)%Z -> (0 <= fold_left (fun a d => 10 * a + Z.of_N d) ds acc)%Z.
Proof.
  revert acc; induction ds as [|d ds IH]; intros acc H; cbn [fold_left];
    [exact H|].
  apply IH; lia.
Qed.

Lemma horner_nonneg (ds : list N) : (0 <= horner ds)%Z.
Proof. apply horner_nonneg_from; lia. Qed.

(** [int] on a string of digit characters. *)
Lemma py_int_of_digits (s : pystr) (v : Z) :
  Forall (fun c => str_isdigit py c = true) s ->
  py_int py s = Some v ->
  exists d ds, decimal_values py s = Some (d :: ds) /\ v = horner (d :: ds).
Proof.
  intros H. unfold py_int. rewrite (int_strip_digits H).
  assert (Hbody :
    (match s with
     | 43%N :: r => (false, r)
     | 45%N :: r => (true, r)
     | _ => (false, s)
     end) = (false, s)).
  { destruct H as [|c s Hc _]; [reflexivity|].
    destruct (N.eq_dec c 43) as [->|]; [discriminate Hc|].
    destruct (N.eq_dec c 45) as [->|]; [discriminate Hc|].
    destruct c as [|p]; [reflexivity|].
    do 6 (destruct p as [p|p|]; try reflexivity); congruence. }
  rewrite Hbody, (int_digits_of_digits false H).
  destruct s as [|c s]; [discriminate|].
  destruct (decimal_values py (c :: s)) as [ds|] eqn:E; [|discriminate].
  destruct (within_limit py ds); [|discriminate].
  intros [= <-]. destruct ds as [|d ds].
  - simpl in E. destruct (digit_value py c); [|discriminate].
    destruct (decimal_values py s); discriminate.
  - now exists d, ds.
Qed.

End TextFacts.

(** ** How the loops run *)

Section Runs.

Variable py : Runtime.
Variable W : World.

Lemma get_product_details_run (url : pystr) (s : Sys) :
  get_product_details py W url s = (Return (fetched py W s url), tick s, [EvGet url]).
Proof. reflexivity. Qed.

Lemma check_alert_run (alert : Alert.t) (s : Sys) :
  check_alert py W alert s =
    (Return (after_fetch alert (fetched py W s (Alert.url alert))), tick s,
     [EvGet (Alert.url alert)]).
Proof. reflexivity. Qed.

(** The loop over alerts never raises, and what it appends does not
    depend on what [user_updates] held before. *)
Lemma check_alerts_acc (alerts : list Alert.t) (acc : list UpdateInfo.t) (s : Sys) :
  check_alerts py W alerts acc s =
    (Return (alerts_of (check_alerts py W alerts [] s),
             acc ++ updates_of (check_alerts py W alerts [] s)),
     state_of (check_alerts py W alerts [] s),
     events_of (check_alerts py W alerts [] s)).
Proof.
  revert acc s; induction alerts as [|a rest IH]; intros acc s.
  - cbn. now rewrite app_nil_r.
  - cbn [check_alerts]. unfold bind at 1 3 5 7 9.
    rewrite check_alert_run.
    destruct (after_fetch a (fetched py W s (Alert.url a))) as [a' hit].
    unfold bind.
    rewrite (IH (match hit with Some u => acc ++ [u] | None => acc end)).
    rewrite (IH (match hit with Some u => [] ++ [u] | None => [] end)).
    destruct (check_alerts py W rest [] (tick s)) as [[r s1] e1].
    unfold alerts_of, updates_of, state_of, events_of, result_of; cbn.
    destruct hit; cbn; rewrite ?app_nil_r, <- ?app_assoc; reflexivity.
Qed.

Lemma check_alerts_cons (a : Alert.t) (rest : list Alert.t) (s : Sys) :
  check_alerts py W (a :: rest) [] s =
    (Return (fst (after_fetch a (fetched py W s (Alert.url a)))
               :: alerts_of (check_alerts py W rest [] (tick s)),
             opt_list (snd (after_fetch a (fetched py W s (Alert.url a))))
               ++ updates_of (check_alerts py W rest [] (tick s))),
     state_of (check_alerts py W rest [] (tick s)),
     EvGet (Alert.url a) :: events_of (check_alerts py W rest [] (tick s))).
Proof.
  cbn [check_alerts]. unfold bind at 1. rewrite check_alert_run.
  destruct (after_fetch a (fetched py W s (Alert.url a))) as [a' hit].
  unfold bind. rewrite check_alerts_acc.
  destruct hit; cbn; rewrite app_nil_r; reflexivity.
Qed.

Lemma check_alerts_app (l1 l2 : list Alert.t) (s : Sys) :
  check_alerts py W (l1 ++ l2) [] s =
    (Return (alerts_of (check_alerts py W l1 [] s)
               ++ alerts_of (check_alerts py W l2 []
                               (state_of (check_alerts py W l1 [] s))),
             updates_of (check_alerts py W l1 [] s)
               ++ updates_of (check_alerts py W l2 []
                                (state_of (check_alerts py W l1 [] s)))),
     state_of (check_alerts py W l2 [] (state_of (check_alerts py W l1 [] s))),
     events_of (check_alerts py W l1 [] s)
       ++ events_of (check_alerts py W l2 []
                       (state_of (check_alerts py W l1 [] s)))).
Proof.
  revert s; induction l1 as [|a l1 IH]; intros s.
  - cbn [app]. rewrite (check_alerts_acc l2 [] s) at 1. reflexivity.
  - cbn [app]. rewrite !check_alerts_cons, IH.
    unfold alerts_of, updates_of, state_of, events_of, result_of; cbn.
    now rewrite app_assoc.
Qed.

Lemma check_alerts_state (alerts : list Alert.t) (s : Sys) :
  state_of (check_alerts py W alerts [] s) =
    {| clock := length alerts + clock s; disk := disk s |}.
Proof.
  revert s; induction alerts as [|a rest IH]; intros s.
  - destruct s; reflexivity.
  - rewrite check_alerts_cons. unfold state_of at 1; cbn [fst snd].
    rewrite IH. cbn. f_equal. lia.
Qed.

Lemma check_alerts_events (alerts : list Alert.t) (s : Sys) :
  events_of (check_alerts py W alerts [] s) = map (fun a => EvGet (Alert.url a)) alerts.
Proof.
  revert s; induction alerts as [|a rest IH]; intros s; [reflexivity|].
  rewrite check_alerts_cons. unfold events_of at 1; cbn [fst snd map].
  now rewrite IH.
Qed.

Lemma after_fetch_url (a : Alert.t) (r : option ProductDetails) :
  Alert.url (fst (after_fetch a r)) = Alert.url a.
Proof.
  destruct r as [pd|]; [|reflexivity]. unfold after_fetch.
  match goal with |- context [if ?c then _ else _] => destruct c end; reflexivity.
Qed.

(** Only the price of an alert is ever assigned. *)
Lemma after_fetch_alert (a : Alert.t) (r : option ProductDetails) :
  fst (after_fetch a r) =
    match r with
    | Some pd => Alert.set_current_price (pd_price pd) a
    | None => a
    end.
Proof.
  destruct r as [pd|]; [|reflexivity]. unfold after_fetch.
  match goal with |- context [if ?c then _ else _] => destruct c end; reflexivity.
Qed.

Lemma check_alerts_urls (alerts : list Alert.t) (s : Sys) :
  map Alert.url (alerts_of (check_alerts py W alerts [] s)) = map Alert.url alerts.
Proof.
  revert s; induction alerts as [|a rest IH]; intros s; [reflexivity|].
  rewrite check_alerts_cons. unfold alerts_of at 1, result_of; cbn [fst snd map].
  now rewrite IH, after_fetch_url.
Qed.

(** *** The dictionary *)

Lemma dict_get_set_same (k : pystr) (v : list Alert.t) (d : Products) :
  dict_get k (dict_set k v d) = Some v.
Proof.
  induction d as [|[k' v'] d IH]; simpl.
  - now rewrite str_eqb_refl.
  - destruct (str_eqb k k') eqn:E; simpl; rewrite E; [reflexivity | exact IH].
Qed.

Lemma dict_get_set_other (k k' : pystr) (v : list Alert.t) (d : Products) :
  k <> k' -> dict_get k (dict_set k' v d) = dict_get k d.
Proof.
  intros Hne; induction d as [|[k0 v0] d IH]; simpl.
  - apply str_eqb_neq in Hne. now rewrite Hne.
  - destruct (str_eqb k' k0) eqn:E; simpl.
    + apply str_eqb_eq in E; subst k0.
      apply str_eqb_neq in Hne. now rewrite Hne.
    + now rewrite IH.
Qed.

Lemma urls_in_set (k u : pystr) (v : list Alert.t) (d : Products) :
  map Alert.url v = urls_in d u ->
  dict_get u d <> None ->
  urls_in (dict_set u v d) k = urls_in d k.
Proof.
  intros Hv Hin. unfold urls_in at 1 2.
  destruct (str_eqb k u) eqn:E.
  - apply str_eqb_eq in E; subst k. rewrite dict_get_set_same.
    rewrite Hv. unfold urls_in. reflexivity.
  - apply str_eqb_neq in E. now rewrite dict_get_set_other.
Qed.

Lemma expected_urls_ext (users : list pystr) (p p' : Products) :
  (forall k, urls_in p' k = urls_in p k) ->
  expected_urls users p' = expected_urls users p.
Proof.
  intros H; unfold expected_urls.
  induction users as [|u users IH]; simpl; [reflexivity|].
  now rewrite H, IH.
Qed.

(** *** One user *)

Lemma check_user_run (user_id : pystr) (products : Products) (f : bool) (s : Sys) :
  check_user py W user_id products f s =
    match dict_get user_id products with
    | None => (Return (products, f), s, [])
    | Some alerts =>
        let r := check_alerts py W alerts [] s in
        let products' := dict_set user_id (alerts_of r) products in
        match updates_of r with
        | [] => (Return (products', f), state_of r, events_of r)
        | u :: us =>
            (Return (products', true), tick (state_of r),
             events_of r ++
             [EvSend user_id (alert_message (u :: us)) (u :: us)
                (send_message_ok W (clock (state_of r)) user_id
                   (alert_message (u :: us)))])
        end
    end.
Proof.
  unfold check_user. destruct (dict_get user_id products) as [alerts|];
    [|reflexivity].
  unfold bind at 1. rewrite check_alerts_acc. cbn [app].
  destruct (updates_of (check_alerts py W alerts [] s)) as [|u us];
    cbn; now rewrite ?app_nil_r.
Qed.

Lemma fetched_urls_app (e1 e2 : list Event) :
  fetched_urls (e1 ++ e2) = fetched_urls e1 ++ fetched_urls e2.
Proof. unfold fetched_urls. apply flat_map_app. Qed.

Lemma fetched_urls_gets (alerts : list Alert.t) :
  fetched_urls (map (fun a => EvGet (Alert.url a)) alerts) = map Alert.url alerts.
Proof. induction alerts as [|a l IH]; simpl; [reflexivity | now rewrite IH]. Qed.

Lemma scan_event_gets (alerts : list Alert.t) :
  Forall scan_event (map (fun a => EvGet (Alert.url a)) alerts).
Proof. induction alerts; simpl; constructor; simpl; auto. Qed.

Lemma existsb_send_gets (alerts : list Alert.t) :
  existsb is_send (map (fun a => EvGet (Alert.url a)) alerts) = false.
Proof. induction alerts; simpl; auto. Qed.

Lemma check_user_ok (user_id : pystr) (products : Products) (f : bool) (s : Sys) :
  pass_ok [user_id] products f s (check_user py W user_id products f s).
Proof.
  unfold pass_ok, expected_urls. cbn [flat_map]. rewrite app_nil_r.
  rewrite check_user_run.
  assert (Hexp : urls_in products user_id =
                 match dict_get user_id products with
                 | Some alerts => map Alert.url alerts
                 | None => []
                 end) by reflexivity.
  destruct (dict_get user_id products) as [alerts|] eqn:Hget.
  - cbn zeta.
    assert (Hurls : forall k,
      urls_in (dict_set user_id
                 (alerts_of (check_alerts py W alerts [] s)) products) k
      = urls_in products k).
    { intros k. apply urls_in_set.
      - rewrite check_alerts_urls. now rewrite Hexp.
      - congruence. }
    pose proof (check_alerts_state alerts s) as Hst.
    pose proof (check_alerts_events alerts s) as Hev.
    destruct (updates_of (check_alerts py W alerts [] s)) as [|u us].
    + do 4 eexists. split; [reflexivity|]. rewrite Hst, Hev, Hexp.
      repeat split; auto using scan_event_gets, fetched_urls_gets.
      now rewrite existsb_send_gets, orb_false_r.
    + do 4 eexists. split; [reflexivity|]. rewrite Hst, Hev, Hexp.
      repeat split; auto.
      * apply Forall_app; split; [apply scan_event_gets|].
        constructor; simpl; auto.
      * rewrite existsb_app; simpl. now rewrite !orb_true_r.
      * rewrite fetched_urls_app, fetched_urls_gets. simpl. apply app_nil_r.
  - do 4 eexists. split; [reflexivity|]. rewrite Hexp.
    repeat split; auto. now rewrite orb_false_r.
Qed.

Lemma check_users_ok (users : list pystr) (products : Products) (f : bool) (s : Sys) :
  pass_ok users products f s (check_users py W users products f s).
Proof.
  revert products f s; induction users as [|u users IH]; intros products f s.
  - unfold pass_ok. do 4 eexists. split; [reflexivity|].
    repeat split; auto. now rewrite orb_false_r.
  - cbn [check_users]. unfold bind.
    destruct (check_user_ok u products f s)
      as (p1 & f1 & s1 & e1 & -> & Hd1 & Hs1 & Hf1 & Hu1 & Hg1).
    destruct (IH p1 f1 s1)
      as (p2 & f2 & s2 & e2 & -> & Hd2 & Hs2 & Hf2 & Hu2 & Hg2).
    unfold pass_ok. do 4 eexists. split; [reflexivity|].
    repeat split.
    + congruence.
    + apply Forall_app; auto.
    + rewrite existsb_app, Hf2, Hf1. now rewrite orb_assoc.
    + intros k. now rewrite Hu2, Hu1.
    + rewrite fetched_urls_app, Hg1, Hg2.
      rewrite (@expected_urls_ext users _ _ Hu1).
      unfold expected_urls. simpl. now rewrite app_nil_r.
Qed.

(** *** Counting events of a pass *)

Lemma saves_app (e1 e2 : list Event) : saves (e1 ++ e2) = saves e1 + saves e2.
Proof. unfold saves. now rewrite filter_app, length_app. Qed.

Lemma sends_app (e1 e2 : list Event) : sends (e1 ++ e2) = sends e1 + sends e2.
Proof. unfold sends. now rewrite filter_app, length_app. Qed.

Lemma crossings_app (e1 e2 : list Event) :
  crossings (e1 ++ e2) = crossings e1 ++ crossings e2.
Proof. unfold crossings. apply flat_map_app. Qed.

Lemma scan_no_save (evs : list Event) : Forall scan_event evs -> saves evs = 0.
Proof.
  induction 1 as [|e evs He _ IH]; [reflexivity|].
  destruct e as [| ? ? [|] ?| |]; simpl in He; try contradiction; exact IH.
Qed.

Lemma scan_send_crossings (evs : list Event) :
  Forall scan_event evs ->
  (existsb is_send evs = false <-> crossings evs = [])
  /\ (existsb is_send evs = true <-> 1 <= sends evs)
  /\ sends evs <= length (crossings evs).
Proof.
  induction 1 as [|e evs He _ (IH1 & IH2 & IH3)].
  - cbn. repeat split; auto; try discriminate. lia.
  - destruct e as [u | c t [|x xs] d | |]; simpl in He; try contradiction.
    + exact (conj IH1 (conj IH2 IH3)).
    + unfold sends, crossings in *. cbn.
      repeat split; try discriminate; try lia.
      rewrite length_app. lia.
Qed.

(** *** The whole cycle *)

Lemma check_all_prices_run (specific_users : option (list pystr)) (s : Sys) :
  check_all_prices py W specific_users s =
    match loaded (disk s) with
    | None => (Raise, s, [])
    | Some products0 =>
        let x := check_users py W (users_to_check specific_users products0)
                   products0 false s in
        match result_of x with
        | Return (products, true) =>
            let outcome := file_write W (clock (state_of x)) in
            (match outcome with Written => Return true | _ => Raise end,
             {| clock := S (clock (state_of x));
                disk := disk_after outcome products (disk (state_of x)) |},
             events_of x ++ [EvSave products outcome])
        | Return (products, false) => (Return false, state_of x, events_of x)
        | Raise => (Raise, state_of x, events_of x)
        end
    end.
Proof.
  unfold check_all_prices, bind, load_products, loaded.
  destruct (disk s) as [|products0|]; [| |reflexivity].
  - cbn [app].
    destruct (check_users py W (users_to_check specific_users []) [] false s)
      as [[[[p [|]]|] s1] e1]; cbn; rewrite ?app_nil_r; try reflexivity.
    destruct (file_write W (clock s1)); reflexivity.
  - cbn [app].
    destruct (check_users py W (users_to_check specific_users products0)
                products0 false s)
      as [[[[p [|]]|] s1] e1]; cbn; rewrite ?app_nil_r; try reflexivity.
    destruct (file_write W (clock s1)); reflexivity.
Qed.

(** The shape of every cycle that gets past the load. *)
Lemma cycle_shape (specific_users : option (list pystr)) (s : Sys)
    (products0 : Products) :
  loaded (disk s) = Some products0 ->
  exists products f s1 e1,
    check_users py W (users_to_check specific_users products0) products0 false s
      = (Return (products, f), s1, e1)
    /\ disk s1 = disk s
    /\ Forall scan_event e1
    /\ f = existsb is_send e1
    /\ (forall k, urls_in products k = urls_in products0 k)
    /\ fetched_urls e1 = expected_urls (users_to_check specific_users products0) products0
    /\ check_all_prices py W specific_users s =
         if f
         then (match file_write W (clock s1) with
               | Written => Return true
               | _ => Raise
               end,
               {| clock := S (clock s1);
                  disk := disk_after (file_write W (clock s1)) products (disk s1) |},
               e1 ++ [EvSave products (file_write W (clock s1))])
         else (Return false, s1, e1).
Proof.
  intros Hload.
  destruct (check_users_ok (users_to_check specific_users products0) products0 false s)
    as (p & f & s1 & e1 & Hrun & Hd & Hs & Hf & Hu & Hg).
  exists p, f, s1, e1. repeat split; auto.
  rewrite check_all_prices_run, Hload. cbn zeta. rewrite Hrun.
  unfold result_of, state_of, events_of; cbn [fst snd].
  destruct f; reflexivity.
Qed.

End Runs.

(** ** The crossing rule and the alert loop *)

Lemma fetch_result (py : Runtime) (W : World) (url : pystr) (s : Sys)
    (r : option ProductDetails) :
  result_of (get_product_details py W url s) = Return r -> fetched py W s url = r.
Proof. rewrite get_product_details_run. cbn. now intros [= ->]. Qed.

Lemma loop_at (py : Runtime) (W : World) (pre : list Alert.t) (alert : Alert.t)
    (post : list Alert.t) (s : Sys) :
  check_alerts py W (pre ++ alert :: post) [] s =
    (Return
       (alerts_of (check_alerts py W pre [] s)
          ++ fst (after_fetch alert (fetched py W (reached py W pre s) (Alert.url alert)))
          :: alerts_of (check_alerts py W post [] (tick (reached py W pre s))),
        updates_of (check_alerts py W pre [] s)
          ++ opt_list (snd (after_fetch alert
                              (fetched py W (reached py W pre s) (Alert.url alert))))
          ++ updates_of (check_alerts py W post [] (tick (reached py W pre s)))),
     state_of (check_alerts py W post [] (tick (reached py W pre s))),
     events_of (check_alerts py W pre [] s)
       ++ EvGet (Alert.url alert)
       :: events_of (check_alerts py W post [] (tick (reached py W pre s)))).
Proof.
  rewrite check_alerts_app, check_alerts_cons. unfold reached. reflexivity.
Qed.

(** C1: when the fetch for an alert succeeds, an entry for that alert is
    appended to the user's notifications iff the new price is at most the
    target and the price held before the fetch was strictly above it; the
    entry records that old price, the new one, and the alert's name, target
    and url; and the user's notifications are those of the alerts before,
    this entry if any, and those of the alerts after. *)
Theorem crossing_rule (py : Runtime) (W : World) (pre : list Alert.t)
    (alert : Alert.t) (post : list Alert.t) (s : Sys)
    (product_details : ProductDetails) :
  result_of (get_product_details py W (Alert.url alert) (reached py W pre s))
    = Return (Some product_details) ->
  (hit_of (check_alert py W alert (reached py W pre s)) <> None
   <-> (pd_price product_details <= Alert.target_price alert)%Z
       /\ (Alert.current_price alert > Alert.target_price alert)%Z)
  /\ (forall u, hit_of (check_alert py W alert (reached py W pre s)) = Some u ->
      u = {| UpdateInfo.name := Alert.name alert;
             UpdateInfo.old_price := Alert.current_price alert;
             UpdateInfo.current_price := pd_price product_details;
             UpdateInfo.target_price := Alert.target_price alert;
             UpdateInfo.url := Alert.url alert |})
  /\ updates_of (check_alerts py W (pre ++ alert :: post) [] s)
     = updates_of (check_alerts py W pre [] s)
       ++ opt_list (hit_of (check_alert py W alert (reached py W pre s)))
       ++ updates_of (check_alerts py W post [] (tick (reached py W pre s))).
Proof.
  intros Hfetch. apply fetch_result in Hfetch.
  rewrite loop_at, check_alert_run, Hfetch.
  unfold hit_of, updates_of, result_of; cbn [fst snd].
  split; [|split; [|reflexivity]].
  - unfold after_fetch. cbn [Alert.set_current_price Alert.target_price].
    destruct (pd_price product_details <=? Alert.target_price alert)%Z eqn:E1;
    destruct (Alert.current_price alert >? Alert.target_price alert)%Z eqn:E2;
      cbn [andb snd];
      try apply Z.leb_le in E1; try apply Z.leb_gt in E1;
      try (apply Z.gtb_lt in E2); try (rewrite Z.gtb_ltb in E2; apply Z.ltb_ge in E2);
      split; try discriminate; try lia; try congruence.
  - intros u. unfold after_fetch.
    cbn [Alert.set_current_price Alert.target_price Alert.name Alert.url].
    destruct ((pd_price product_details <=? Alert.target_price alert)%Z
              && (Alert.current_price alert >? Alert.target_price alert)%Z);
      cbn [snd]; [now intros [= <-] | discriminate].
Qed.

Lemma crossing_rule_witness :
  result_of (get_product_details ascii_runtime Sample.cheap Sample.phone_url
               (reached ascii_runtime Sample.cheap [] Sample.one_alert))
    = Return (Some Sample.cheap_details)
  /\ (hit_of (check_alert ascii_runtime Sample.cheap (Sample.phone 1200 1000)
                (reached ascii_runtime Sample.cheap [] Sample.one_alert)) <> None
      <-> (950 <= 1000)%Z /\ (1200 > 1000)%Z).
Proof.
  split; [reflexivity|].
  apply (@crossing_rule ascii_runtime Sample.cheap [] (Sample.phone 1200 1000) []
           Sample.one_alert Sample.cheap_details).
  reflexivity.
Defined.

(** The four cases the specification lists. *)
Example crossing_1200_950_1000 (a : Alert.t) (pd : ProductDetails) :
  Alert.current_price a = 1200%Z -> pd_price pd = 950%Z ->
  Alert.target_price a = 1000%Z ->
  snd (after_fetch a (Some pd)) <> None.
Proof.
  intros H1 H2 H3. unfold after_fetch. cbn. rewrite H1, H2, H3. discriminate.
Qed.

Example crossing_900_850_1000 (a : Alert.t) (pd : ProductDetails) :
  Alert.current_price a = 900%Z -> pd_price pd = 850%Z ->
  Alert.target_price a = 1000%Z ->
  snd (after_fetch a (Some pd)) = None.
Proof.
  intros H1 H2 H3. unfold after_fetch. cbn. rewrite H1, H2, H3. reflexivity.
Qed.

Example crossing_1000_1000_1000 (a : Alert.t) (pd : ProductDetails) :
  Alert.current_price a = 1000%Z -> pd_price pd = 1000%Z ->
  Alert.target_price a = 1000%Z ->
  snd (after_fetch a (Some pd)) = None.
Proof.
  intros H1 H2 H3. unfold after_fetch. cbn. rewrite H1, H2, H3. reflexivity.
Qed.

Example crossing_1200_1200_1000 (a : Alert.t) (pd : ProductDetails) :
  Alert.current_price a = 1200%Z -> pd_price pd = 1200%Z ->
  Alert.target_price a = 1000%Z ->
  snd (after_fetch a (Some pd)) = None.
Proof.
  intros H1 H2 H3. unfold after_fetch. cbn. rewrite H1, H2, H3. reflexivity.
Qed.

(** C4: when the fetch for an alert fails, the alert is left as it was
    and nothing is appended for it; the loop goes on with the alerts that
    follow, which are processed as they would be from that state on; and
    whatever fetches fail, a pass over users returns and requests the page
    of every alert of every user it was given, in order. *)
Theorem fetch_failure_isolated (py : Runtime) (W : World) (pre : list Alert.t)
    (alert : Alert.t) (post : list Alert.t) (s : Sys) :
  result_of (get_product_details py W (Alert.url alert) (reached py W pre s))
    = Return None ->
  alert_of (check_alert py W alert (reached py W pre s)) = Some alert
  /\ hit_of (check_alert py W alert (reached py W pre s)) = None
  /\ result_of (check_alerts py W (pre ++ alert :: post) [] s)
     = Return (alerts_of (check_alerts py W pre [] s)
                 ++ alert
                 :: alerts_of (check_alerts py W post [] (tick (reached py W pre s))),
               updates_of (check_alerts py W pre [] s)
                 ++ updates_of (check_alerts py W post [] (tick (reached py W pre s))))
  /\ (forall users products f s0,
        (exists products' f',
           result_of (check_users py W users products f s0) = Return (products', f'))
        /\ fetched_urls (events_of (check_users py W users products f s0))
           = expected_urls users products).
Proof.
  intros Hfetch. apply fetch_result in Hfetch.
  rewrite loop_at, check_alert_run, Hfetch.
  unfold alert_of, hit_of, result_of; cbn [fst snd after_fetch opt_list app].
  repeat split; auto.
  - destruct (check_users_ok py W users products f s0)
      as (p' & f' & s' & evs & -> & _). now exists p', f'.
  - destruct (check_users_ok py W users products f s0)
      as (p' & f' & s' & evs & -> & _ & _ & _ & _ & Hg). exact Hg.
Qed.

(** C5, as the code has it: when the fetch for an alert succeeds, the
    alert's current price becomes the fetched price whether or not there
    is a crossing, and its name and every other field stay as they were. *)
Theorem price_overwritten_name_kept (py : Runtime) (W : World)
    (pre : list Alert.t) (alert : Alert.t) (post : list Alert.t) (s : Sys)
    (product_details : ProductDetails) :
  result_of (get_product_details py W (Alert.url alert) (reached py W pre s))
    = Return (Some product_details) ->
  exists alert',
    alert_of (check_alert py W alert (reached py W pre s)) = Some alert'
    /\ Alert.current_price alert' = pd_price product_details
    /\ Alert.name alert' = Alert.name alert
    /\ Alert.id alert' = Alert.id alert
    /\ Alert.url alert' = Alert.url alert
    /\ Alert.target_price alert' = Alert.target_price alert
    /\ Alert.added_on alert' = Alert.added_on alert
    /\ alerts_of (check_alerts py W (pre ++ alert :: post) [] s)
       = alerts_of (check_alerts py W pre [] s)
         ++ alert'
         :: alerts_of (check_alerts py W post [] (tick (reached py W pre s))).
Proof.
  intros Hfetch. apply fetch_result in Hfetch.
  exists (Alert.set_current_price (pd_price product_details) alert).
  rewrite loop_at, check_alert_run, Hfetch.
  unfold alert_of, alerts_of, result_of; cbn [fst snd].
  pose proof (after_fetch_alert alert (Some product_details)) as Ha.
  destruct (after_fetch alert (Some product_details)) as [alert' hit].
  cbn [fst] in Ha. subst alert'. repeat split; reflexivity.
Qed.

Lemma price_overwritten_name_kept_witness :
  result_of (get_product_details ascii_runtime Sample.cheap Sample.phone_url
               (reached ascii_runtime Sample.cheap [] Sample.one_alert))
    = Return (Some Sample.cheap_details)
  /\ exists alert',
       alert_of (check_alert ascii_runtime Sample.cheap (Sample.phone 1200 1000)
                   (reached ascii_runtime Sample.cheap [] Sample.one_alert))
         = Some alert'
       /\ Alert.current_price alert' = 950%Z
       /\ Alert.name alert' = lit "Phone".
Proof.
  split; [reflexivity|].
  destruct (@price_overwritten_name_kept ascii_runtime Sample.cheap []
              (Sample.phone 1200 1000) [] Sample.one_alert Sample.cheap_details
              eq_refl)
    as (alert' & H1 & H2 & H3 & _).
  exists alert'. repeat split; assumption.
Defined.

(** C5 as stated fails: the shop now calls the phone "Phone X", the fetch
    succeeds, and the alert keeps the name "Phone". *)
Lemma name_not_overwritten :
  result_of (get_product_details ascii_runtime Sample.cheap Sample.phone_url
               Sample.one_alert)
    = Return (Some Sample.cheap_details)
  /\ alert_of (check_alert ascii_runtime Sample.cheap (Sample.phone 1200 1000)
                 Sample.one_alert)
     = Some (Sample.phone 950 1000)
  /\ Alert.name (Sample.phone 950 1000) <> pd_name Sample.cheap_details.
Proof. split; [reflexivity|]. split; [reflexivity|]. discriminate. Qed.

Lemma fetch_failure_isolated_witness :
  result_of (get_product_details ascii_runtime
               (Sample.shop (lit "Phone") (lit "sold out")) Sample.phone_url
               (reached ascii_runtime (Sample.shop (lit "Phone") (lit "sold out")) []
                  Sample.one_alert))
    = Return None
  /\ alert_of (check_alert ascii_runtime (Sample.shop (lit "Phone") (lit "sold out"))
                 (Sample.phone 1200 1000)
                 (reached ascii_runtime (Sample.shop (lit "Phone") (lit "sold out")) []
                    Sample.one_alert))
     = Some (Sample.phone 1200 1000).
Proof.
  split; [reflexivity|].
  apply (@fetch_failure_isolated ascii_runtime
           (Sample.shop (lit "Phone") (lit "sold out")) []
           (Sample.phone 1200 1000) [] Sample.one_alert).
  reflexivity.
Defined.

(** ** Saving and notifying in a cycle *)

(** C3: in a cycle that notifies at least one crossing there is exactly
    one call of [save_products]; it is the last thing the cycle does, made
    after the page of every alert of every checked user has been requested,
    and it is given the whole collection as the pass over the users left
    it, with every user's list in it. *)
Theorem single_save_per_cycle (py : Runtime) (W : World)
    (specific_users : option (list pystr)) (s : Sys) :
  1 <= length (crossings (events_of (check_all_prices py W specific_users s))) ->
  exists products0 evs products outcome,
    loaded (disk s) = Some products0
    /\ events_of (check_all_prices py W specific_users s)
       = evs ++ [EvSave products outcome]
    /\ saves evs = 0
    /\ saves (events_of (check_all_prices py W specific_users s)) = 1
    /\ fetched_urls evs
       = expected_urls (users_to_check specific_users products0) products0
    /\ products_of (check_users py W (users_to_check specific_users products0)
                      products0 false s) = Some products
    /\ (forall k, urls_in products k = urls_in products0 k).
Proof.
  intros Hcross.
  destruct (loaded (disk s)) as [products0|] eqn:Hload.
  - destruct (cycle_shape py W specific_users s Hload)
      as (p & f & s1 & e1 & Hrun & Hd & Hs & Hf & Hu & Hg & Hcycle).
    rewrite Hcycle in Hcross |- *.
    destruct (scan_send_crossings Hs) as (Hnone & _ & _).
    destruct f.
    + exists products0, e1, p, (file_write W (clock s1)).
      cbn [events_of snd]. rewrite saves_app, (scan_no_save Hs), Hrun.
      repeat split; auto.
    + cbn [events_of snd] in Hcross.
      symmetry in Hf. apply Hnone in Hf. rewrite Hf in Hcross.
      cbn in Hcross. lia.
  - rewrite check_all_prices_run, Hload in Hcross. cbn in Hcross. lia.
Qed.

Lemma single_save_per_cycle_witness :
  1 <= length (crossings (events_of
                 (check_all_prices ascii_runtime Sample.cheap None Sample.one_alert)))
  /\ saves (events_of
              (check_all_prices ascii_runtime Sample.cheap None Sample.one_alert)) = 1.
Proof.
  split; [vm_compute; lia|].
  destruct (@single_save_per_cycle ascii_runtime Sample.cheap None Sample.one_alert)
    as (p0 & evs & p & o & _ & _ & _ & H & _); [vm_compute; lia | exact H].
Defined.

(** C9: a cycle that notifies no crossing makes no call of
    [save_products] and leaves the file as it was, so the prices it
    fetched are dropped with the collection it had in memory. *)
Theorem no_crossing_no_save (py : Runtime) (W : World)
    (specific_users : option (list pystr)) (s : Sys) :
  crossings (events_of (check_all_prices py W specific_users s)) = [] ->
  saves (events_of (check_all_prices py W specific_users s)) = 0
  /\ sends (events_of (check_all_prices py W specific_users s)) = 0
  /\ disk (state_of (check_all_prices py W specific_users s)) = disk s
  /\ result_of (check_all_prices py W specific_users s) <> Return true.
Proof.
  intros Hcross.
  destruct (loaded (disk s)) as [products0|] eqn:Hload.
  - destruct (cycle_shape py W specific_users s Hload)
      as (p & f & s1 & e1 & Hrun & Hd & Hs & Hf & Hu & Hg & Hcycle).
    rewrite Hcycle in Hcross |- *.
    destruct (scan_send_crossings Hs) as (Hnone & Hsome & _).
    destruct f.
    + cbn [events_of snd] in Hcross. rewrite crossings_app in Hcross.
      apply app_eq_nil in Hcross. destruct Hcross as [Hc _].
      apply Hnone in Hc. congruence.
    + cbn [events_of state_of result_of fst snd].
      rewrite (scan_no_save Hs). repeat split; auto; [|discriminate].
      destruct (sends e1) eqn:E; [reflexivity|].
      assert (existsb is_send e1 = true) by (apply Hsome; lia). congruence.
  - rewrite check_all_prices_run, Hload. cbn. repeat split; auto. discriminate.
Qed.

Lemma no_crossing_no_save_witness :
  crossings (events_of
    (check_all_prices ascii_runtime
       (Sample.shop (lit "Phone") (Sample.rupees (lit "1,100"))) None
       Sample.one_alert)) = []
  /\ disk (state_of
       (check_all_prices ascii_runtime
          (Sample.shop (lit "Phone") (Sample.rupees (lit "1,100"))) None
          Sample.one_alert))
     = Stored [(Sample.alice, [Sample.phone 1200 1000])].
Proof.
  split; [reflexivity|].
  apply (@no_crossing_no_save ascii_runtime
           (Sample.shop (lit "Phone") (Sample.rupees (lit "1,100"))) None
           Sample.one_alert).
  reflexivity.
Defined.

(** The price fetched in such a cycle, 1100, reaches the collection in
    memory and not the file, which still says 1200. *)
Example stale_price_after_quiet_cycle :
  products_of (check_users ascii_runtime
                 (Sample.shop (lit "Phone") (Sample.rupees (lit "1,100")))
                 [Sample.alice] [(Sample.alice, [Sample.phone 1200 1000])] false
                 Sample.one_alert)
    = Some [(Sample.alice, [Sample.phone 1100 1000])]
  /\ disk (state_of
       (check_all_prices ascii_runtime
          (Sample.shop (lit "Phone") (Sample.rupees (lit "1,100"))) None
          Sample.one_alert))
     = Stored [(Sample.alice, [Sample.phone 1200 1000])].
Proof. split; reflexivity. Qed.

(** ** What the answers to writes and to messages can and cannot change *)



Lemma check_alerts_send (py : Runtime) (W : World)
    (g : nat -> pystr -> pystr -> bool)
    (alerts : list Alert.t) (acc : list UpdateInfo.t) (s : Sys) :
  check_alerts py (with_send g W) alerts acc s = check_alerts py W alerts acc s.
Proof.
  revert acc s; induction alerts as [|a rest IH]; intros acc s; [reflexivity|].
  cbn [check_alerts]. unfold bind at 1 3.
  change (check_alert py (with_send g W) a s) with (check_alert py W a s).
  destruct (check_alert py W a s) as [[[[a' hit]|] s1] e1]; [|reflexivity].
  unfold bind. now rewrite IH.
Qed.

Lemma check_user_send (py : Runtime) (W : World)
    (g : nat -> pystr -> pystr -> bool)
    (u : pystr) (products : Products) (f : bool) (s : Sys) :
  same_attempts (check_user py (with_send g W) u products f s)
                (check_user py W u products f s).
Proof.
  unfold same_attempts. rewrite !check_user_run.
  destruct (dict_get u products) as [alerts|]; [|repeat split].
  cbn zeta. rewrite check_alerts_send.
  destruct (updates_of (check_alerts py W alerts [] s)); [repeat split|].
  unfold result_of, state_of, events_of; cbn [fst snd].
  repeat split. rewrite !map_app. reflexivity.
Qed.

Lemma check_users_send (py : Runtime) (W : World)
    (g : nat -> pystr -> pystr -> bool)
    (users : list pystr) (products : Products) (f : bool) (s : Sys) :
  same_attempts (check_users py (with_send g W) users products f s)
                (check_users py W users products f s).
Proof.
  revert products f s; induction users as [|u users IH]; intros products f s;
    [repeat split|].
  cbn [check_users]. unfold bind.
  destruct (check_user_send py W g u products f s) as (Hr & Hs & He).
  destruct (check_user_ok py W u products f s) as (p1 & f1 & s1 & e1 & E1 & _).
  destruct (check_user_ok py (with_send g W) u products f s)
    as (p1' & f1' & s1' & e1' & E1' & _).
  rewrite E1, E1' in *. unfold result_of, state_of, events_of in Hr, Hs, He.
  cbn [fst snd] in Hr, Hs, He. injection Hr as -> ->. subst s1'.
  destruct (IH p1 f1 s1) as (Hr2 & Hs2 & He2).
  destruct (check_users py (with_send g W) users p1 f1 s1) as [[r2' s2'] e2'].
  destruct (check_users py W users p1 f1 s1) as [[r2 s2] e2].
  unfold same_attempts, result_of, state_of, events_of in *.
  cbn [fst snd] in *. subst. rewrite !map_app, He, He2. repeat split.
Qed.

Lemma check_all_prices_send (py : Runtime) (W : World)
    (g : nat -> pystr -> pystr -> bool)
    (specific_users : option (list pystr)) (s : Sys) :
  same_attempts (check_all_prices py (with_send g W) specific_users s)
                (check_all_prices py W specific_users s).
Proof.
  rewrite !check_all_prices_run.
  destruct (loaded (disk s)) as [products0|]; [|repeat split].
  cbn zeta.
  destruct (check_users_send py W g (users_to_check specific_users products0)
              products0 false s) as (Hr & Hs & He).
  destruct (check_users py (with_send g W) (users_to_check specific_users products0)
              products0 false s) as [[r' s'] e'].
  destruct (check_users py W (users_to_check specific_users products0)
              products0 false s) as [[r1 s1] e1].
  unfold same_attempts, result_of, state_of, events_of in *.
  cbn [fst snd] in *. subst r' s'.
  destruct r1 as [[p [|]]|]; cbn [fst snd with_send file_write];
    repeat split; auto.
  rewrite !map_app, He. reflexivity.
Qed.





(** ** A crossing whose message was not delivered *)

Lemma check_alerts_length (py : Runtime) (W : World) (alerts : list Alert.t)
    (s : Sys) :
  length (alerts_of (check_alerts py W alerts [] s)) = length alerts.
Proof.
  rewrite <- (length_map Alert.url), check_alerts_urls. apply length_map.
Qed.

Lemma check_user_keeps_others (py : Runtime) (W : World) (k u : pystr)
    (products : Products) (f : bool) (s : Sys)
    (products' : Products) (f' : bool) (s' : Sys) (evs : list Event) :
  check_user py W u products f s = (Return (products', f'), s', evs) ->
  k <> u -> dict_get k products' = dict_get k products.
Proof.
  rewrite check_user_run. intros Hrun Hne.
  destruct (dict_get u products) as [alerts|].
  - cbn zeta in Hrun.
    destruct (updates_of (check_alerts py W alerts [] s));
      injection Hrun as <- _ _ _; now apply dict_get_set_other.
  - now injection Hrun as <- _ _ _.
Qed.

Lemma check_users_keeps_others (py : Runtime) (W : World) (k : pystr)
    (users : list pystr) (products : Products) (f : bool) (s : Sys)
    (products' : Products) (f' : bool) (s' : Sys) (evs : list Event) :
  check_users py W users products f s = (Return (products', f'), s', evs) ->
  ~ In k users -> dict_get k products' = dict_get k products.
Proof.
  revert products f s products' f' s' evs.
  induction users as [|u users IH]; intros products f s products' f' s' evs.
  - cbn. now intros [= <- _ _ _].
  - cbn [check_users]. unfold bind. intros Hrun Hnot.
    destruct (check_user_ok py W u products f s) as (p1 & f1 & s1 & e1 & E1 & _).
    rewrite E1 in Hrun.
    destruct (check_users_ok py W users p1 f1 s1) as (p2 & f2 & s2 & e2 & E2 & _).
    rewrite E2 in Hrun. injection Hrun as <- _ _ _.
    rewrite (IH _ _ _ _ _ _ _ E2), (@check_user_keeps_others _ _ k _ _ _ _ _ _ _ _ E1); auto.
    + intros ->. apply Hnot. now left.
    + intros Hin. apply Hnot. now right.
Qed.

Lemma check_users_split (py : Runtime) (W : World) (us1 : list pystr) (u : pystr)
    (us2 : list pystr) (products : Products) (f : bool) (s : Sys) :
  exists p1 f1 s1 e1 p2 f2 s2 e2 p3 f3 s3 e3,
    check_users py W us1 products f s = (Return (p1, f1), s1, e1)
    /\ check_user py W u p1 f1 s1 = (Return (p2, f2), s2, e2)
    /\ check_users py W us2 p2 f2 s2 = (Return (p3, f3), s3, e3)
    /\ check_users py W (us1 ++ u :: us2) products f s
       = (Return (p3, f3), s3, e1 ++ e2 ++ e3).
Proof.
  revert products f s; induction us1 as [|v us1 IH]; intros products f s.
  - destruct (check_user_ok py W u products f s) as (p2 & f2 & s2 & e2 & E2 & _).
    destruct (check_users_ok py W us2 p2 f2 s2) as (p3 & f3 & s3 & e3 & E3 & _).
    exists products, f, s, [], p2, f2, s2, e2, p3, f3, s3, e3.
    repeat split; auto.
    cbn [app check_users]. unfold bind. now rewrite E2, E3.
  - destruct (check_user_ok py W v products f s) as (p0 & f0 & s0 & e0 & E0 & _).
    destruct (IH p0 f0 s0)
      as (p1 & f1 & s1 & e1 & p2 & f2 & s2 & e2 & p3 & f3 & s3 & e3
          & H1 & H2 & H3 & H4).
    exists p1, f1, s1, (e0 ++ e1), p2, f2, s2, e2, p3, f3, s3, e3.
    repeat split; auto.
    + cbn [check_users]. unfold bind. now rewrite E0, H1.
    + cbn [app check_users]. unfold bind. rewrite E0, H4.
      now rewrite app_assoc.
Qed.

(** Once an alert has produced a crossing, the alert as it is left cannot
    produce one at its next check, whatever is fetched then. *)
Lemma no_second_hit (alert : Alert.t) (r : option ProductDetails)
    (u : UpdateInfo.t) :
  snd (after_fetch alert r) = Some u ->
  (Alert.current_price (fst (after_fetch alert r))
   <= Alert.target_price (fst (after_fetch alert r)))%Z
  /\ forall r', snd (after_fetch (fst (after_fetch alert r)) r') = None.
Proof.
  intros H. rewrite after_fetch_alert.
  destruct r as [pd|]; [|discriminate].
  assert (E1 : (pd_price pd <= Alert.target_price alert)%Z).
  { unfold after_fetch in H.
    cbn [Alert.set_current_price Alert.target_price] in H.
    destruct (pd_price pd <=? Alert.target_price alert)%Z eqn:E;
      [now apply Z.leb_le in E | discriminate]. }
  split; [exact E1|].
  intros [pd'|]; [|reflexivity]. unfold after_fetch.
  cbn [Alert.set_current_price Alert.target_price Alert.current_price].
  assert (E2 : (pd_price pd >? Alert.target_price alert)%Z = false).
  { rewrite Z.gtb_ltb. apply Z.ltb_ge. exact E1. }
  rewrite E2, andb_false_r. reflexivity.
Qed.

(** C10: whether messages are delivered changes nothing else in a cycle:
    with any other answers to [send_message] the cycle makes the same
    attempts in the same order, ends in the same state and returns the
    same.  And a crossing found for an alert of a user (one the cycle
    visits once, as it does every key of the dictionary) is part of a
    dispatch attempt and sets [updates_found], delivered or not: the cycle
    ends with the save of the collection, and the file is then what the
    file system made of that write; when it is written, the file holds the
    collection, in which that alert has the new price, at or below its
    target, so that its next check cannot report a crossing whatever is
    fetched. *)
Theorem undelivered_crossing_persisted (py : Runtime) (W : World)
    (specific_users : option (list pystr)) (s : Sys) (products0 : Products)
    (us1 : list pystr) (user_id : pystr) (us2 : list pystr)
    (pre : list Alert.t) (alert : Alert.t) (post : list Alert.t)
    (u : UpdateInfo.t) :
  loaded (disk s) = Some products0 ->
  users_to_check specific_users products0 = us1 ++ user_id :: us2 ->
  ~ In user_id us1 ->
  ~ In user_id us2 ->
  dict_get user_id products0 = Some (pre ++ alert :: post) ->
  hit_of (check_alert py W alert
            (reached py W pre (state_of (check_users py W us1 products0 false s))))
    = Some u ->
  (forall g, same_attempts (check_all_prices py (with_send g W) specific_users s)
                           (check_all_prices py W specific_users s))
  /\ exists evs products alerts' alert',
       events_of (check_all_prices py W specific_users s)
         = evs ++ [EvSave products
                     (file_write W
                        (clock (state_of
                           (check_users py W
                              (users_to_check specific_users products0)
                              products0 false s))))]
       /\ In u (crossings evs)
       /\ disk (state_of (check_all_prices py W specific_users s))
          = disk_after
              (file_write W
                 (clock (state_of
                    (check_users py W (users_to_check specific_users products0)
                       products0 false s))))
              products (disk s)
       /\ (file_write W
             (clock (state_of
                (check_users py W (users_to_check specific_users products0)
                   products0 false s))) = Written ->
           loaded (disk (state_of (check_all_prices py W specific_users s)))
             = Some products)
       /\ dict_get user_id products = Some alerts'
       /\ nth_error alerts' (length pre) = Some alert'
       /\ (Alert.current_price alert' <= Alert.target_price alert')%Z
       /\ (forall py' W' s', hit_of (check_alert py' W' alert' s') = None).
Proof.
  intros Hload Husers Hnot1 Hnot2 Hget Hhit.
  split; [intros g; apply check_all_prices_send|].
  destruct (cycle_shape py W specific_users s Hload)
    as (p & f & s1 & e1 & Hrun & Hd & _ & _ & _ & _ & Hcycle).
  rewrite Hrun. cbn [state_of fst snd].
  rewrite Husers in Hrun.
  destruct (check_users_split py W us1 user_id us2 products0 false s)
    as (p1 & f1 & t1 & d1 & p2 & f2 & t2 & d2 & p3 & f3 & t3 & d3
        & H1 & H2 & H3 & H4).
  rewrite H4 in Hrun. injection Hrun as <- <- <- <-.
  rewrite H1 in Hhit. unfold state_of in Hhit; cbn [fst snd] in Hhit.
  assert (Hget1 : dict_get user_id p1 = Some (pre ++ alert :: post)).
  { rewrite <- Hget.
    exact (@check_users_keeps_others _ _ user_id _ _ _ _ _ _ _ _ H1 Hnot1). }
  rewrite check_user_run, Hget1 in H2. cbn zeta in H2.
  rewrite check_alert_run in Hhit. unfold hit_of, result_of in Hhit.
  cbn [fst] in Hhit.
  pose proof (loop_at py W pre alert post t1) as Hloop.
  destruct (after_fetch alert (fetched py W (reached py W pre t1) (Alert.url alert)))
    as [alert' hit] eqn:Hafter.
  cbn [fst snd] in Hloop. subst hit.
  assert (Hups : updates_of (check_alerts py W (pre ++ alert :: post) [] t1)
                 = updates_of (check_alerts py W pre [] t1)
                   ++ [u] ++ updates_of (check_alerts py W post [] (tick (reached py W pre t1))))
    by (rewrite Hloop; reflexivity).
  assert (Hals : alerts_of (check_alerts py W (pre ++ alert :: post) [] t1)
                 = alerts_of (check_alerts py W pre [] t1)
                   ++ alert' :: alerts_of (check_alerts py W post [] (tick (reached py W pre t1))))
    by (rewrite Hloop; reflexivity).
  destruct (updates_of (check_alerts py W (pre ++ alert :: post) [] t1))
    as [|u0 us] eqn:Hupd.
  { symmetry in Hups. apply app_eq_nil in Hups. destruct Hups as [_ Hups].
    discriminate Hups. }
  injection H2 as <- <- <- <-.
  destruct (check_users_ok py W us2
              (dict_set user_id
                 (alerts_of (check_alerts py W (pre ++ alert :: post) [] t1)) p1)
              true
              (tick (state_of (check_alerts py W (pre ++ alert :: post) [] t1))))
    as (q & fq & sq & eq & Eq & _ & _ & Hfq & _).
  rewrite H3 in Eq. injection Eq as <- <- <- <-.
  cbn [orb] in Hfq. subst f3.
  rewrite Hcycle.
  pose proof (no_second_hit alert
                (fetched py W (reached py W pre t1) (Alert.url alert))) as Hnext.
  rewrite Hafter in Hnext. cbn [fst snd] in Hnext.
  destruct (Hnext u eq_refl) as [Hle Hnone].
  exists (d1 ++ (events_of (check_alerts py W (pre ++ alert :: post) [] t1) ++
                 [EvSend user_id (alert_message (u0 :: us)) (u0 :: us)
                    (send_message_ok W
                       (clock (state_of (check_alerts py W (pre ++ alert :: post) [] t1)))
                       user_id (alert_message (u0 :: us)))]) ++ d3),
         p3,
         (alerts_of (check_alerts py W (pre ++ alert :: post) [] t1)), alert'.
  split; [reflexivity|].
  split.
  { assert (Hin : In u (u0 :: us)).
    { rewrite Hups. apply in_or_app; right. now left. }
    rewrite !crossings_app. apply in_or_app; right.
    apply in_or_app; left. apply in_or_app; right.
    unfold crossings. cbn [flat_map crossings_of]. rewrite app_nil_r.
    exact Hin. }
  split.
  { cbn [state_of fst snd disk]. now rewrite Hd. }
  split.
  { intros Hw. cbn [state_of fst snd disk]. now rewrite Hw. }
  split.
  { rewrite (@check_users_keeps_others _ _ user_id _ _ _ _ _ _ _ _ H3 Hnot2).
    apply dict_get_set_same. }
  split.
  { rewrite Hals, nth_error_app2; rewrite check_alerts_length; [|lia].
    now rewrite Nat.sub_diag. }
  split; [exact Hle|].
  intros py' W' s'. rewrite check_alert_run. unfold hit_of, result_of.
  cbn [fst]. apply Hnone.
Qed.

Lemma undelivered_crossing_persisted_witness :
  hit_of (check_alert ascii_runtime Sample.muted (Sample.phone 1200 1000)
            (reached ascii_runtime Sample.muted [Sample.phone 900 800]
               (state_of (check_users ascii_runtime Sample.muted [Sample.bob]
                            Sample.three_users false
                            (Sample.start (Stored Sample.three_users))))))
    = Some Sample.drop
  /\ file_write Sample.muted
       (clock (state_of
          (check_users ascii_runtime Sample.muted
             (users_to_check None Sample.three_users) Sample.three_users false
             (Sample.start (Stored Sample.three_users))))) = Written
  /\ exists evs products alerts' alert',
       events_of (check_all_prices ascii_runtime Sample.muted None
                    (Sample.start (Stored Sample.three_users)))
         = evs ++ [EvSave products Written]
       /\ In Sample.drop (crossings evs)
       /\ loaded (disk (state_of
            (check_all_prices ascii_runtime Sample.muted None
               (Sample.start (Stored Sample.three_users)))))
          = Some products
       /\ dict_get Sample.alice products = Some alerts'
       /\ nth_error alerts' 1 = Some alert'
       /\ (Alert.current_price alert' <= Alert.target_price alert')%Z.
Proof.
  split; [reflexivity|].
  split; [reflexivity|].
  destruct (@undelivered_crossing_persisted ascii_runtime Sample.muted None
              (Sample.start (Stored Sample.three_users)) Sample.three_users
              [Sample.bob] Sample.alice [Sample.carol]
              [Sample.phone 900 800] (Sample.phone 1200 1000) [] Sample.drop
              eq_refl eq_refl
              ltac:(cbn; intuition discriminate)
              ltac:(cbn; intuition discriminate)
              eq_refl eq_refl)
    as (_ & evs & products & alerts' & alert'
        & H1 & H2 & _ & H4 & H5 & H6 & H7 & _).
  exists evs, products, alerts', alert'.
  repeat split; try assumption.
  apply H4. reflexivity.
Defined.

(** With every message refused, Alice's failed delivery is followed by
    the attempt for Carol, and the file then holds every alert at 950. *)
Example muted_cycle_three_users :
  chats (events_of
    (check_all_prices ascii_runtime Sample.muted None
       (Sample.start (Stored Sample.three_users))))
    = [Sample.alice; Sample.carol]
  /\ existsb (fun e => match e with EvSend _ _ _ d => d | _ => false end)
       (events_of (check_all_prices ascii_runtime Sample.muted None
                     (Sample.start (Stored Sample.three_users))))
     = false
  /\ disk (state_of (check_all_prices ascii_runtime Sample.muted None
                       (Sample.start (Stored Sample.three_users))))
     = Stored [(Sample.bob, [Sample.phone 950 1000]);
               (Sample.alice, [Sample.phone 950 800; Sample.phone 950 1000]);
               (Sample.carol, [Sample.phone 950 1000])].
Proof. repeat split; reflexivity. Qed.

(** With every message refused, the cycle still saves, and the file then
    holds the phone at 950. *)
Example muted_cycle_saves :
  map is_send (events_of
    (check_all_prices ascii_runtime Sample.muted None Sample.one_alert))
    = [false; true; false]
  /\ existsb (fun e => match e with EvSend _ _ _ d => d | _ => false end)
       (events_of (check_all_prices ascii_runtime Sample.muted None Sample.one_alert))
     = false
  /\ state_of (check_all_prices ascii_runtime Sample.muted None Sample.one_alert)
     = {| clock := 3; disk := Stored [(Sample.alice, [Sample.phone 950 1000])] |}
  /\ crossings (events_of
       (check_all_prices ascii_runtime Sample.muted None
          (state_of (check_all_prices ascii_runtime Sample.muted None
                       Sample.one_alert))))
     = [].
Proof. repeat split; reflexivity. Qed.

(** ** The fetcher *)

(** C7: [get_product_details] never raises; when the price element or
    both name elements are missing from the page it returns [None]; and
    whenever it returns details, the page had a name element and a price
    element, the name is that element's stripped text, and the price is
    the non-negative integer read from the digit characters of the price
    text, every other character dropped. *)
Theorem fetch_all_or_nothing (py : Runtime) (W : World) (url : pystr) (s : Sys) :
  get_product_details py W url s = (Return (fetched py W s url), tick s, [EvGet url])
  /\ (forall soup,
        http_get W (clock s) url = Parsed soup ->
        sel_div_price soup = None
        \/ (sel_span_B_NuCI soup = None /\ sel_h1_span soup = None) ->
        fetched py W s url = None)
  /\ (forall product_details,
        fetched py W s url = Some product_details ->
        exists soup name_el price_el,
          http_get W (clock s) url = Parsed soup
          /\ (sel_span_B_NuCI soup = Some name_el
              \/ (sel_span_B_NuCI soup = None /\ sel_h1_span soup = Some name_el))
          /\ sel_div_price soup = Some price_el
          /\ pd_name product_details = strip name_el
          /\ pd_url product_details = url
          /\ py_int py (filter (str_isdigit py) (strip price_el))
             = Some (pd_price product_details)
          /\ normalized_price py price_el = Some (pd_price product_details)
          /\ (0 <= pd_price product_details)%Z).
Proof.
  split; [reflexivity|]. unfold fetched, scrape. split.
  - intros soup -> [Hp | [Hn1 Hn2]].
    + now rewrite Hp.
    + rewrite Hn1, Hn2. now destruct (sel_div_price soup).
  - intros pd. destruct (http_get W (clock s) url) as [|soup]; [discriminate|].
    destruct (sel_div_price soup) as [price_el|] eqn:Hprice; [|discriminate].
    assert (Hname : forall name_el,
      match sel_span_B_NuCI soup with
      | Some e => Some e
      | None => sel_h1_span soup
      end = Some name_el ->
      sel_span_B_NuCI soup = Some name_el
      \/ (sel_span_B_NuCI soup = None /\ sel_h1_span soup = Some name_el)).
    { intros name_el. destruct (sel_span_B_NuCI soup); auto. }
    destruct (match sel_span_B_NuCI soup with
              | Some e => Some e
              | None => sel_h1_span soup
              end) as [name_el|]; [|discriminate].
    specialize (Hname name_el eq_refl).
    destruct (py_int py (filter (str_isdigit py) (strip price_el))) as [v|] eqn:Hint;
      [|discriminate].
    destruct (@py_int_of_digits py _ _ (filter_isdigit_all py (strip price_el)) Hint)
      as (d & ds & Hvals & Hv).
    rewrite filter_isdigit_strip in Hvals.
    assert (Hnorm : normalized_price py price_el = Some v).
    { unfold normalized_price. now rewrite Hvals, Hv. }
    assert (Hpos : (0 <= v)%Z) by (rewrite Hv; apply horner_nonneg).
    intros Hpd. exists soup, name_el, price_el.
    destruct (sel_img soup) as [[src|]|]; [|discriminate|];
      injection Hpd as <-; cbn [pd_name pd_url pd_price]; repeat split; auto.
Qed.

(** A price text with a currency sign and Indian digit grouping. *)
Example price_1_29_999 :
  fetched ascii_runtime
    (Sample.shop (lit "Phone") (Sample.rupees (lit "1,29,999")))
    Sample.one_alert Sample.phone_url
  = Some {| pd_name := lit "Phone"; pd_price := 129999;
            pd_url := Sample.phone_url; pd_image := None |}.
Proof. reflexivity. Qed.

(** A page whose image element has no [src] gives no details at all. *)
Example image_without_src (name price_text url : pystr) :
  scrape ascii_runtime
    (Parsed {| sel_span_B_NuCI := Some name; sel_h1_span := None;
               sel_div_price := Some price_text; sel_img := Some None |}) url
  = None.
Proof.
  unfold scrape; cbn [sel_span_B_NuCI sel_div_price sel_img].
  now destruct (py_int ascii_runtime _).
Qed.

(** ** Removing an alert *)

Lemma load_products_run (s : Sys) (products : Products) :
  loaded (disk s) = Some products -> load_products s = (Return products, s, []).
Proof.
  unfold loaded, load_products.
  destruct (disk s); intros [= <-]; reflexivity.
Qed.

Lemma pop_first_match (alert_id : pystr) (pre : list Alert.t) (removed : Alert.t)
    (post : list Alert.t) :
  (forall a, In a pre -> Alert.id a <> alert_id) ->
  Alert.id removed = alert_id ->
  pop_first alert_id (pre ++ removed :: post) = Some (removed, pre ++ post).
Proof.
  intros Hpre Hid; induction pre as [|a pre IH]; cbn.
  - apply str_eqb_eq in Hid. now rewrite Hid.
  - assert (Ha : str_eqb (Alert.id a) alert_id = false).
    { apply str_eqb_neq. apply Hpre. now left. }
    rewrite Ha, IH; [reflexivity|].
    intros b Hb. apply Hpre. now right.
Qed.

Lemma pop_first_no_match (alert_id : pystr) (alerts : list Alert.t) :
  (forall a, In a alerts -> Alert.id a <> alert_id) ->
  pop_first alert_id alerts = None.
Proof.
  induction alerts as [|a alerts IH]; intros H; cbn; [reflexivity|].
  assert (Ha : str_eqb (Alert.id a) alert_id = false).
  { apply str_eqb_neq. apply H. now left. }
  rewrite Ha, IH; [reflexivity|].
  intros b Hb. apply H. now right.
Qed.

(** Alice has no alerts, so none matches the id she gives: she is told
    that she has no active alerts, and nothing is saved. *)
Example remove_without_alerts :
  dict_get Sample.alice [(Sample.bob, [Sample.phone 1200 1000])] = None
  /\ remove_product Sample.cheap Sample.alice [lit "MOBXYZ"]
       (Sample.start (Stored [(Sample.bob, [Sample.phone 1200 1000])]))
     = (Return tt,
        tick (Sample.start (Stored [(Sample.bob, [Sample.phone 1200 1000])])),
        [EvReply msg_no_alerts true]).
Proof. split; reflexivity. Qed.

(** C6: with a first alert of the caller's list whose id equals the
    argument, the collection without that alert is handed to
    [save_products], and once written the removal is reported with the
    alert's name.  When no alert of the caller matches, the caller is told
    so by one reply, which is never the success report (the not-found
    text when there are alerts, the no-alerts text when there are none),
    nothing is saved and the file is as before. *)
Theorem remove_first_match (W : World) (user_id alert_id : pystr)
    (more : list pystr) (s : Sys) (products : Products) :
  loaded (disk s) = Some products ->
  (forall pre removed post,
      dict_get user_id products = Some (pre ++ removed :: post) ->
      Alert.id removed = alert_id ->
      (forall a, In a pre -> Alert.id a <> alert_id) ->
      events_of (remove_product W user_id (alert_id :: more) s)
        = EvSave (dict_set user_id (pre ++ post) products) (file_write W (clock s))
          :: match file_write W (clock s) with
             | Written =>
                 [EvReply (msg_removed removed)
                    (reply_text_ok W (S (clock s)) (msg_removed removed))]
             | _ => []
             end
      /\ disk (state_of (remove_product W user_id (alert_id :: more) s))
         = disk_after (file_write W (clock s))
             (dict_set user_id (pre ++ post) products) (disk s))
  /\ (forall alerts,
        dict_get user_id products = Some alerts ->
        alerts <> [] ->
        (forall a, In a alerts -> Alert.id a <> alert_id) ->
        events_of (remove_product W user_id (alert_id :: more) s)
          = [EvReply (msg_not_found alert_id)
               (reply_text_ok W (clock s) (msg_not_found alert_id))]
        /\ disk (state_of (remove_product W user_id (alert_id :: more) s)) = disk s)
  /\ (dict_get user_id products = None \/ dict_get user_id products = Some [] ->
      events_of (remove_product W user_id (alert_id :: more) s)
        = [EvReply msg_no_alerts (reply_text_ok W (clock s) msg_no_alerts)]
      /\ disk (state_of (remove_product W user_id (alert_id :: more) s)) = disk s)
  /\ ((forall a, In a (alerts_for products user_id) -> Alert.id a <> alert_id) ->
      exists text,
        events_of (remove_product W user_id (alert_id :: more) s)
          = [EvReply text (reply_text_ok W (clock s) text)]
        /\ not_found_report alert_id text
        /\ (forall removed, text <> msg_removed removed)
        /\ saves (events_of (remove_product W user_id (alert_id :: more) s)) = 0
        /\ disk (state_of (remove_product W user_id (alert_id :: more) s)) = disk s).
Proof.
  intros Hload. unfold remove_product, bind.
  rewrite (load_products_run s Hload). cbn [app].
  split; [|split; [|split]]; cycle 3.
  { unfold alerts_for. intros Hno.
    destruct (dict_get user_id products) as [[|a0 l0]|].
    - exists msg_no_alerts. unfold reply_text, not_found_report. cbn.
      repeat split; auto. intros removed. discriminate.
    - rewrite (@pop_first_no_match _ _ Hno).
      exists (msg_not_found alert_id). unfold reply_text, not_found_report. cbn.
      repeat split; auto. intros removed. discriminate.
    - exists msg_no_alerts. unfold reply_text, not_found_report. cbn.
      repeat split; auto. intros removed. discriminate. }
  - intros pre removed post Hget Hid Hpre. rewrite Hget.
    assert (Hpop := @pop_first_match alert_id pre removed post Hpre Hid).
    destruct (pre ++ removed :: post) as [|a0 l0] eqn:E.
    { destruct pre; discriminate E. }
    rewrite Hpop. unfold save_products, reply_text.
    destruct (file_write W (clock s)); cbn; split; reflexivity.
  - intros alerts Hget Hne Hno. rewrite Hget.
    destruct alerts as [|a0 l0]; [congruence|].
    rewrite (@pop_first_no_match _ _ Hno). unfold reply_text.
    cbn. split; reflexivity.
  - intros [Hget | Hget]; rewrite Hget; unfold reply_text; cbn;
      split; reflexivity.
Qed.

Lemma remove_first_match_witness :
  loaded (disk Sample.one_alert) = Some [(Sample.alice, [Sample.phone 1200 1000])]
  /\ events_of (remove_product Sample.cheap Sample.alice [lit "MOBXYZ"]
                  Sample.one_alert)
     = [EvSave [(Sample.alice, [])] Written;
        EvReply (msg_removed (Sample.phone 1200 1000)) true].
Proof.
  split; [reflexivity|].
  destruct (@remove_first_match Sample.cheap Sample.alice (lit "MOBXYZ") []
              Sample.one_alert [(Sample.alice, [Sample.phone 1200 1000])] eq_refl)
    as (H & _).
  destruct (H [] (Sample.phone 1200 1000) [] eq_refl eq_refl) as [Hev _].
  - intros a [].
  - exact Hev.
Defined.

(** ** Adding an alert *)

Lemma dict_set_set (k : pystr) (v w : list Alert.t) (d : Products) :
  dict_set k v (dict_set k w d) = dict_set k v d.
Proof.
  induction d as [|[k' v'] d IH]; cbn.
  - now rewrite str_eqb_refl.
  - destruct (str_eqb k k') eqn:E; cbn; rewrite E; [reflexivity | now rewrite IH].
Qed.

Lemma strip_prefix_some (prefix s tl : pystr) :
  strip_prefix prefix s = Some tl -> s = prefix ++ tl.
Proof.
  revert s; induction prefix as [|p prefix IH]; intros s; cbn.
  - now intros [= ->].
  - destruct s as [|c s]; [discriminate|].
    destruct (N.eqb p c) eqn:E; [|discriminate].
    apply N.eqb_eq in E; subst c. intros H. now rewrite (IH _ H).
Qed.

Lemma take_while_split (p : N -> bool) (s : pystr) :
  exists after,
    s = take_while p s ++ after
    /\ Forall (fun c => p c = true) (take_while p s)
    /\ (after = [] \/ exists c t, after = c :: t /\ p c = false).
Proof.
  induction s as [|c s (after & E & Hall & Hafter)]; cbn.
  - exists []. auto.
  - destruct (p c) eqn:Hc.
    + exists after. cbn. rewrite <- E. repeat split; auto.
    + exists (c :: s). repeat split; auto. right. now exists c, s.
Qed.

(** What a match of the pattern says about the url. *)
Lemma extract_product_id_some (url pid : pystr) :
  extract_product_id url = Some pid ->
  exists before after,
    url = before ++ lit "pid=" ++ pid ++ after
    /\ pid <> []
    /\ ~ In 38%N pid
    /\ (after = [] \/ exists t, after = 38%N :: t).
Proof.
  induction url as [|c url IH].
  - cbn. discriminate.
  - cbn [extract_product_id].
    destruct (match_pid_here (c :: url)) as [g|] eqn:Hm.
    + intros [= ->]. unfold match_pid_here in Hm.
      destruct (strip_prefix (lit "pid=") (c :: url)) as [tl|] eqn:Hp;
        [|discriminate].
      apply strip_prefix_some in Hp.
      destruct (take_while_split not_amp tl) as (after & E & Hall & Hafter).
      destruct (take_while not_amp tl) as [|g0 g'] eqn:Hg; [discriminate|].
      injection Hm as <-.
      exists [], after. cbn [app]. rewrite Hp, E.
      repeat split; [discriminate| |].
      * intros Hin. rewrite Forall_forall in Hall.
        specialize (Hall _ Hin). discriminate Hall.
      * destruct Hafter as [->|(c' & t & -> & Hc')]; [now left|right].
        exists t. unfold not_amp in Hc'. apply negb_false_iff in Hc'.
        apply N.eqb_eq in Hc'. now subst c'.
    + intros H. destruct (IH H) as (before & after & -> & Hne & Hno & Hafter).
      exists (c :: before), after. auto.
Qed.

Lemma strip_prefix_app_early (prefix tl : pystr) :
  strip_prefix prefix (prefix ++ tl) = Some tl.
Proof.
  induction prefix as [|p prefix IH]; cbn; [reflexivity|].
  now rewrite N.eqb_refl.
Qed.

(** The match is the leftmost one: every "pid=" that starts earlier in
    the url is followed by an ampersand. *)
Lemma extract_product_id_leftmost (url pid : pystr) :
  extract_product_id url = Some pid ->
  exists before after,
    url = before ++ lit "pid=" ++ pid ++ after
    /\ pid <> []
    /\ ~ In 38%N pid
    /\ (after = [] \/ exists t, after = 38%N :: t)
    /\ (forall b1 c rest,
          url = b1 ++ lit "pid=" ++ c :: rest ->
          length b1 < length before -> c = 38%N).
Proof.
  induction url as [|c0 url IH].
  - cbn. discriminate.
  - cbn [extract_product_id].
    destruct (match_pid_here (c0 :: url)) as [g|] eqn:Hm.
    + intros [= ->].
      assert (Hsome : extract_product_id (c0 :: url) = Some pid).
      { cbn [extract_product_id]. now rewrite Hm. }
      unfold match_pid_here in Hm.
      destruct (strip_prefix (lit "pid=") (c0 :: url)) as [tl|] eqn:Hp;
        [|discriminate].
      apply strip_prefix_some in Hp.
      destruct (take_while_split not_amp tl) as (after & E & Hall & Hafter).
      destruct (take_while not_amp tl) as [|g0 g'] eqn:Hg; [discriminate|].
      injection Hm as <-.
      exists [], after. cbn [app length]. rewrite Hp, E.
      repeat split; [discriminate| | |intros b1 c rest _ Hlt; lia].
      * intros Hin. rewrite Forall_forall in Hall.
        specialize (Hall _ Hin). discriminate Hall.
      * destruct Hafter as [->|(c' & t & -> & Hc')]; [now left|right].
        exists t. unfold not_amp in Hc'. apply negb_false_iff in Hc'.
        apply N.eqb_eq in Hc'. now subst c'.
    + intros H.
      destruct (IH H) as (before & after & -> & Hne & Hno & Hafter & Hleft).
      exists (c0 :: before), after. repeat split; auto.
      intros b1 c rest Hurl Hlt. destruct b1 as [|b b1].
      * cbn [app] in Hurl. unfold match_pid_here in Hm.
        rewrite Hurl, strip_prefix_app_early in Hm.
        cbn [take_while] in Hm. unfold not_amp in Hm at 1.
        destruct (c =? 38)%N eqn:Ec; [now apply N.eqb_eq in Ec | discriminate].
      * cbn [app] in Hurl. injection Hurl as _ Hurl.
        apply (Hleft b1 c rest Hurl). cbn [length] in Hlt. lia.
Qed.

(** Without a match, every "pid=" in the url is followed by an ampersand
    or by nothing. *)
Lemma extract_product_id_no_match (url : pystr) :
  extract_product_id url = None ->
  forall before c after, url = before ++ lit "pid=" ++ c :: after -> c = 38%N.
Proof.
  intros Hnone before. revert url Hnone.
  induction before as [|b before IH]; intros url Hnone c after ->.
  - assert (Hhere : match_pid_here (lit "pid=" ++ c :: after) = None).
    { cbn [app] in Hnone. revert Hnone.
      generalize (lit "pid=" ++ c :: after).
      intros [|x l]; cbn [extract_product_id];
        destruct (match_pid_here _); congruence. }
    clear Hnone. rename Hhere into Hnone.
    unfold match_pid_here in Hnone.
    rewrite strip_prefix_app_early in Hnone.
    cbn [take_while] in Hnone. unfold not_amp in Hnone at 1.
    destruct (c =? 38)%N eqn:E; [now apply N.eqb_eq in E | discriminate].
  - cbn [app extract_product_id] in Hnone.
    destruct (match_pid_here (b :: before ++ lit "pid=" ++ c :: after));
      [discriminate|].
    exact (IH _ Hnone c after eq_refl).
Qed.

Lemma extract_product_id_truthy (url : pystr) :
  match extract_product_id url with
  | Some (c :: g) => Some (c :: g)
  | _ => None
  end = extract_product_id url.
Proof.
  destruct (extract_product_id url) as [[|c g]|] eqn:E; try reflexivity.
  apply extract_product_id_some in E. destruct E as (_ & _ & _ & H & _).
  congruence.
Qed.

(** C8 as stated fails twice.  Adding the same product page a second
    time leaves Alice with two alerts that have the same id.  And the id
    is not always the url's pid query parameter: in a url whose query is
    "spid=1&pid=2" that parameter is "2", and the id extracted is "1". *)
Lemma same_product_added_twice :
  stored_ids
    (disk (state_of
       (add_product ascii_runtime Sample.cheap Sample.alice
          [Sample.phone_url; lit "1000"]
          (state_of
             (add_product ascii_runtime Sample.cheap Sample.alice
                [Sample.phone_url; lit "1000"] (Sample.start NoFile))))))
    Sample.alice
  = [lit "MOBXYZ"; lit "MOBXYZ"]
  /\ ~ NoDup [lit "MOBXYZ"; lit "MOBXYZ"]
  /\ spec_pid_query_parameter (lit "https://www.flipkart.com/p/itm?spid=1&pid=2")
     = Some (lit "2")
  /\ stored_ids
       (disk (state_of
          (add_product ascii_runtime Sample.cheap Sample.alice
             [lit "https://www.flipkart.com/p/itm?spid=1&pid=2"; lit "1000"]
             (Sample.start NoFile))))
       Sample.alice
     = [lit "1"].
Proof.
  split; [reflexivity|]. split; [|split; reflexivity].
  intros H. inversion H as [|x l Hnin _]; subst. apply Hnin. now left.
Qed.

(** C8, as the code has it.  When the arguments are accepted, the first
    reply goes through, the page is fetched and the file loads,
    [add_product] appends one alert to the caller's list and hands the
    collection to [save_products].  The alert's id is the product id
    extracted from the url when there is one: the non-empty text free of
    ampersands that follows the leftmost "pid=" not directly followed by an
    ampersand, wherever in the url that stands, and that ends at the next
    ampersand or at the end.  Otherwise, when every "pid=" of the url is
    followed by an ampersand or by nothing, it is the length the list had,
    written in decimal.  The alert is appended whatever ids the list holds:
    when one of its alerts already has that id, the ids of the new list
    are not distinct. *)
Theorem add_appends_alert (py : Runtime) (W : World) (user_id url price_arg : pystr)
    (more : list pystr) (s : Sys) (target_price : Z)
    (product_details : ProductDetails) (products : Products) :
  py_int py price_arg = Some target_price ->
  contains (lit "flipkart.com") url = true ->
  reply_text_ok W (clock s) msg_fetching = true ->
  fetched py W (tick s) url = Some product_details ->
  loaded (disk s) = Some products ->
  exists alert,
    Alert.id alert
      = match extract_product_id url with
        | Some pid => pid
        | None => str_of_int (Z.of_nat (length (alerts_for products user_id)))
        end
    /\ Alert.name alert = pd_name product_details
    /\ Alert.url alert = url
    /\ Alert.current_price alert = pd_price product_details
    /\ Alert.target_price alert = target_price
    /\ Alert.added_on alert = time_time W (S (S (clock s)))
    /\ firstn 3 (events_of (add_product py W user_id (url :: price_arg :: more) s))
       = [EvReply msg_fetching true; EvGet url;
          EvSave (dict_set user_id (alerts_for products user_id ++ [alert]) products)
            (file_write W (S (S (S (clock s)))))]
    /\ disk (state_of (add_product py W user_id (url :: price_arg :: more) s))
       = disk_after (file_write W (S (S (S (clock s)))))
           (dict_set user_id (alerts_for products user_id ++ [alert]) products)
           (disk s)
    /\ (forall pid, extract_product_id url = Some pid ->
        exists before after,
          url = before ++ lit "pid=" ++ pid ++ after
          /\ pid <> []
          /\ ~ In 38%N pid
          /\ (after = [] \/ exists t, after = 38%N :: t)
          /\ (forall b1 c rest,
                url = b1 ++ lit "pid=" ++ c :: rest ->
                length b1 < length before -> c = 38%N))
    /\ (extract_product_id url = None ->
        forall before c after,
          url = before ++ lit "pid=" ++ c :: after -> c = 38%N)
    /\ (forall a, In a (alerts_for products user_id) ->
        Alert.id a = Alert.id alert ->
        ~ NoDup (map Alert.id (alerts_for products user_id ++ [alert]))).
Proof.
  intros Hint Hurl Hreply Hfetch Hload.
  eexists {| Alert.id := _; Alert.name := _; Alert.url := _;
             Alert.current_price := _; Alert.target_price := _;
             Alert.added_on := _ |}.
  cbn [Alert.id Alert.name Alert.url Alert.current_price Alert.target_price
       Alert.added_on].
  do 6 (split; [reflexivity|]).
  assert (Hrun :
    add_product py W user_id (url :: price_arg :: more) s
    = let alerts := alerts_for products user_id in
      let alert :=
        {| Alert.id := match extract_product_id url with
                       | Some pid => pid
                       | None => str_of_int (Z.of_nat (length alerts))
                       end;
           Alert.name := pd_name product_details; Alert.url := url;
           Alert.current_price := pd_price product_details;
           Alert.target_price := target_price;
           Alert.added_on := time_time W (S (S (clock s))) |} in
      let products' := dict_set user_id (alerts ++ [alert]) products in
      let outcome := file_write W (S (S (S (clock s)))) in
      (match outcome with
       | Written =>
           if reply_text_ok W (S (S (S (S (clock s)))))
                (msg_added product_details target_price)
           then Return tt else Raise
       | _ => Raise
       end,
       {| clock := match outcome with
                   | Written => S (S (S (S (S (clock s)))))
                   | _ => S (S (S (S (clock s))))
                   end;
          disk := disk_after outcome products' (disk s) |},
       [EvReply msg_fetching true; EvGet url; EvSave products' outcome]
       ++ match outcome with
          | Written =>
              [EvReply (msg_added product_details target_price)
                 (reply_text_ok W (S (S (S (S (clock s)))))
                    (msg_added product_details target_price))]
          | _ => []
          end)).
  { unfold add_product. rewrite Hint, Hurl. cbn [negb].
    unfold bind at 1. unfold reply_text at 1. rewrite Hreply.
    unfold bind at 1. rewrite get_product_details_run, Hfetch.
    unfold bind at 1.
    rewrite (@load_products_run (tick (tick s)) products Hload).
    assert (Hal : alerts_for
                    match dict_get user_id products with
                    | Some _ => products
                    | None => dict_set user_id [] products
                    end user_id = alerts_for products user_id).
    { unfold alerts_for. destruct (dict_get user_id products) eqn:E.
      - now rewrite E.
      - now rewrite dict_get_set_same. }
    assert (Hset : forall v,
              dict_set user_id v
                match dict_get user_id products with
                | Some _ => products
                | None => dict_set user_id [] products
                end = dict_set user_id v products).
    { intros v. destruct (dict_get user_id products); [reflexivity|].
      apply dict_set_set. }
    cbn zeta. unfold bind, now, save_products, reply_text.
    cbn [tick clock disk app]. rewrite Hal, Hset.
    assert (Hid : match extract_product_id url with
                  | Some (c :: g) => c :: g
                  | _ => str_of_int (Z.of_nat (length (alerts_for products user_id)))
                  end
                  = match extract_product_id url with
                    | Some pid => pid
                    | None => str_of_int (Z.of_nat (length (alerts_for products user_id)))
                    end).
    { pose proof (extract_product_id_truthy url) as Ht.
      destruct (extract_product_id url) as [[|c g]|]; try reflexivity.
      discriminate Ht. }
    rewrite Hid.
    destruct (file_write W (S (S (S (clock s))))); reflexivity. }
  rewrite Hrun. cbn zeta. cbn [events_of state_of fst snd disk firstn app].
  split; [reflexivity|]. split; [reflexivity|].
  split; [exact (@extract_product_id_leftmost url)|].
  split; [exact (@extract_product_id_no_match url)|].
  intros a Hin Hid Hnd. rewrite map_app in Hnd. cbn [map] in Hnd.
  apply NoDup_remove_2 in Hnd. apply Hnd. rewrite app_nil_r.
  cbn [Alert.id] in Hid |- *. rewrite <- Hid. now apply in_map.
Qed.

Lemma add_appends_alert_witness :
  py_int ascii_runtime (lit "1000") = Some 1000%Z
  /\ exists alert,
       Alert.id alert = lit "MOBXYZ"
       /\ disk (state_of (add_product ascii_runtime Sample.cheap Sample.alice
                            [Sample.phone_url; lit "1000"] (Sample.start NoFile)))
          = Stored [(Sample.alice, [alert])].
Proof.
  split; [reflexivity|].
  destruct (@add_appends_alert ascii_runtime Sample.cheap Sample.alice
              Sample.phone_url (lit "1000") [] (Sample.start NoFile) 1000%Z
              Sample.cheap_details [] eq_refl eq_refl eq_refl eq_refl eq_refl)
    as (alert & Hid & _ & _ & _ & _ & _ & _ & Hdisk & _).
  exists alert. split; [exact Hid | exact Hdisk].
Defined.

(** Without a product id in the url the id is the position: "0", then "1". *)
Example positional_ids :
  stored_ids
    (disk (state_of
       (add_product ascii_runtime Sample.cheap Sample.alice
          [lit "https://www.flipkart.com/book"; lit "300"]
          (state_of
             (add_product ascii_runtime Sample.cheap Sample.alice
                [lit "https://www.flipkart.com/book"; lit "300"]
                (Sample.start NoFile))))))
    Sample.alice
  = [lit "0"; lit "1"].
Proof. reflexivity. Qed.

(** After removing "0" the list has length one again, and the next alert
    added is a second "1". *)
Example positional_id_reused :
  stored_ids
    (disk (state_of
       (add_product ascii_runtime Sample.cheap Sample.alice
          [lit "https://www.flipkart.com/book"; lit "300"]
          (state_of
             (remove_product Sample.cheap Sample.alice [lit "0"]
                (state_of
                   (add_product ascii_runtime Sample.cheap Sample.alice
                      [lit "https://www.flipkart.com/book"; lit "300"]
                      (state_of
                         (add_product ascii_runtime Sample.cheap Sample.alice
                            [lit "https://www.flipkart.com/book"; lit "300"]
                            (Sample.start NoFile))))))))))
    Sample.alice
  = [lit "1"; lit "1"].
Proof. reflexivity. Qed.

Unset Implicit Arguments.

(** ** More on [extract_product_id] *)

Lemma strip_prefix_app (prefix tl : pystr) :
  strip_prefix prefix (prefix ++ tl) = Some tl.
Proof.
  induction prefix as [|p prefix IH]; cbn; [reflexivity|].
  now rewrite N.eqb_refl.
Qed.

Lemma strip_prefix_amp (prefix s more : pystr) :
  ~ In 38%N prefix ->
  strip_prefix prefix (s ++ 38%N :: more)
  = match strip_prefix prefix s with
    | Some tl => Some (tl ++ 38%N :: more)
    | None => None
    end.
Proof.
  revert s; induction prefix as [|p prefix IH]; intros s Hno; [reflexivity|].
  destruct s as [|c s]; cbn.
  - destruct (N.eqb p 38) eqn:E; [|reflexivity].
    apply N.eqb_eq in E. exfalso. apply Hno. now left.
  - destruct (N.eqb p c); [|reflexivity].
    apply IH. intros H. apply Hno. now right.
Qed.

Lemma take_while_amp (tl more : pystr) :
  take_while not_amp (tl ++ 38%N :: more) = take_while not_amp tl.
Proof.
  induction tl as [|c tl IH]; cbn; [reflexivity|].
  destruct (not_amp c); [now rewrite IH | reflexivity].
Qed.

Lemma match_pid_here_amp (s more : pystr) :
  match_pid_here (s ++ 38%N :: more) = match_pid_here s.
Proof.
  unfold match_pid_here. rewrite strip_prefix_amp.
  - destruct (strip_prefix (lit "pid=") s) as [tl|]; [|reflexivity].
    now rewrite take_while_amp.
  - cbn. intros [H|[H|[H|[H|[]]]]]; discriminate H.
Qed.

Lemma extract_none_here (url : pystr) :
  extract_product_id url = None -> match_pid_here url = None.
Proof.
  destruct url as [|c url]; cbn [extract_product_id];
    destruct (match_pid_here _); congruence.
Qed.

(** X1: no id is extracted exactly when every "pid=" in the url is
    followed by an ampersand or by nothing. *)
Theorem extract_product_id_none_iff (url : pystr) :
  extract_product_id url = None
  <-> forall before c after, url = before ++ lit "pid=" ++ c :: after -> c = 38%N.
Proof.
  split.
  - intros Hnone before. revert url Hnone.
    induction before as [|b before IH]; intros url Hnone c after ->.
    + apply extract_none_here in Hnone. unfold match_pid_here in Hnone.
      cbn [app] in Hnone. rewrite strip_prefix_app in Hnone.
      cbn [take_while] in Hnone. unfold not_amp in Hnone at 1.
      destruct (c =? 38)%N eqn:E; [now apply N.eqb_eq in E | discriminate].
    + cbn [app extract_product_id] in Hnone.
      destruct (match_pid_here (b :: before ++ lit "pid=" ++ c :: after));
        [discriminate|].
      exact (IH _ Hnone c after eq_refl).
  - intros H. destruct (extract_product_id url) as [pid|] eqn:E; [|reflexivity].
    apply extract_product_id_some in E.
    destruct E as (before & after & -> & Hne & Hno & _).
    destruct pid as [|c pid]; [congruence|].
    exfalso. apply Hno. left.
    apply (H before c (pid ++ after)).
    cbn [app]. reflexivity.
Qed.

(** X2: a further query parameter appended to the url does not change
    the id extracted from it. *)
Theorem extract_product_id_more_params (url pid more : pystr) :
  extract_product_id url = Some pid ->
  extract_product_id (url ++ 38%N :: more) = Some pid.
Proof.
  induction url as [|c url IH]; [cbn; discriminate|].
  cbn [app extract_product_id].
  change (c :: url ++ 38%N :: more) with ((c :: url) ++ 38%N :: more).
  rewrite match_pid_here_amp.
  destruct (match_pid_here (c :: url)); [trivial | exact IH].
Qed.

Lemma extract_product_id_more_params_witness :
  extract_product_id Sample.phone_url = Some (lit "MOBXYZ")
  /\ extract_product_id (Sample.phone_url ++ 38%N :: lit "affid=shop") = Some (lit "MOBXYZ").
Proof.
  split; [reflexivity|].
  apply (@extract_product_id_more_params Sample.phone_url (lit "MOBXYZ")
           (lit "affid=shop")).
  reflexivity.
Defined.

(** ** Every way a fetch can fail *)

Lemma py_int_digits_eq (py : Runtime) (s : pystr) :
  Forall (fun c => str_isdigit py c = true) s ->
  py_int py s =
    match decimal_values py s with
    | Some (d :: ds) =>
        if within_limit py (d :: ds) then Some (horner (d :: ds)) else None
    | _ => None
    end.
Proof.
  intros H. unfold py_int. rewrite (@int_strip_digits py _ H).
  assert (Hbody :
    (match s with
     | 43%N :: r => (false, r)
     | 45%N :: r => (true, r)
     | _ => (false, s)
     end) = (false, s)).
  { destruct H as [|c s Hc _]; [reflexivity|].
    destruct (N.eq_dec c 43) as [->|]; [discriminate Hc|].
    destruct (N.eq_dec c 45) as [->|]; [discriminate Hc|].
    destruct c as [|p]; [reflexivity|].
    do 6 (destruct p as [p|p|]; try reflexivity); congruence. }
  rewrite Hbody, (@int_digits_of_digits py _ false H).
  destruct s as [|c s]; [reflexivity|].
  destruct (decimal_values py (c :: s)) as [[|d ds]|] eqn:E; try reflexivity.
  cbn in E. destruct (digit_value py c); [|discriminate].
  destruct (decimal_values py s); discriminate.
Qed.

(** X3: a parsed page gives no product details exactly when it has no
    name element, or no price element, or a price text that has no digit
    or a digit character without decimal value, or more digits than [int]
    accepts, or an image element without [src]. *)
Theorem scrape_fails_iff (py : Runtime) (soup : Page) (url : pystr) :
  scrape py (Parsed soup) url = None
  <-> (sel_span_B_NuCI soup = None /\ sel_h1_span soup = None)
      \/ sel_div_price soup = None
      \/ (exists price_el,
            sel_div_price soup = Some price_el
            /\ (normalized_price py price_el = None
                \/ exists ds,
                     decimal_values py (filter (str_isdigit py) price_el) = Some ds
                     /\ within_limit py ds = false))
      \/ sel_img soup = Some None.
Proof.
  unfold scrape, normalized_price.
  destruct (sel_div_price soup) as [price_el|]; cycle 1.
  { split; [auto|]. intros _.
    now destruct (match sel_span_B_NuCI soup with
                  | Some e => Some e
                  | None => sel_h1_span soup
                  end). }
  rewrite (@py_int_digits_eq py _ (filter_isdigit_all py (strip price_el))).
  rewrite filter_isdigit_strip.
  destruct (sel_span_B_NuCI soup) as [n1|];
    [|destruct (sel_h1_span soup) as [n2|]; [|now split; auto]].
  all: destruct (decimal_values py (filter (str_isdigit py) price_el))
         as [[|d ds]|] eqn:Hvals;
       try (split; [intros _|reflexivity]; right; right; left;
            exists price_el; split; [reflexivity|left];
            rewrite Hvals; reflexivity).
  all: destruct (within_limit py (d :: ds)) eqn:Hlim;
       try (split; [intros _|reflexivity]; right; right; left;
            exists price_el; split; [reflexivity|right];
            exists (d :: ds); split; [exact Hvals|exact Hlim]).
  all: destruct (sel_img soup) as [[src|]|];
       try (split; [intros _; right; right; right; reflexivity | reflexivity]).
  all: split; [discriminate|].
  all: intros [[H1 H2]|[H|[(pe & Hpe & [H|(ds' & Hd & Hl)])|H]]];
       try discriminate; injection Hpe as <-;
       rewrite Hvals in *; try discriminate;
       injection Hd as <-; congruence.
Qed.

(** ** What [add_product] does on each path *)

Lemma add_product_run (py : Runtime) (W : World) (user_id url price_arg : pystr)
    (more : list pystr) (s : Sys) (target_price : Z)
    (product_details : ProductDetails) (products : Products) :
  py_int py price_arg = Some target_price ->
  contains (lit "flipkart.com") url = true ->
  reply_text_ok W (clock s) msg_fetching = true ->
  fetched py W (tick s) url = Some product_details ->
  loaded (disk s) = Some products ->
  add_product py W user_id (url :: price_arg :: more) s
  = (match file_write W (S (S (S (clock s)))) with
     | Written =>
         if reply_text_ok W (S (S (S (S (clock s)))))
              (msg_added product_details target_price)
         then Return tt else Raise
     | _ => Raise
     end,
     {| clock := match file_write W (S (S (S (clock s)))) with
                 | Written => S (S (S (S (S (clock s)))))
                 | _ => S (S (S (S (clock s))))
                 end;
        disk := disk_after (file_write W (S (S (S (clock s)))))
                  (dict_set user_id
                     (alerts_for products user_id ++
                      [{| Alert.id :=
                            match extract_product_id url with
                            | Some pid => pid
                            | None =>
                                str_of_int
                                  (Z.of_nat (length (alerts_for products user_id)))
                            end;
                          Alert.name := pd_name product_details;
                          Alert.url := url;
                          Alert.current_price := pd_price product_details;
                          Alert.target_price := target_price;
                          Alert.added_on := time_time W (S (S (clock s))) |}])
                     products)
                  (disk s) |},
     [EvReply msg_fetching true; EvGet url;
      EvSave (dict_set user_id
                (alerts_for products user_id ++
                 [{| Alert.id :=
                       match extract_product_id url with
                       | Some pid => pid
                       | None =>
                           str_of_int
                             (Z.of_nat (length (alerts_for products user_id)))
                       end;
                     Alert.name := pd_name product_details;
                     Alert.url := url;
                     Alert.current_price := pd_price product_details;
                     Alert.target_price := target_price;
                     Alert.added_on := time_time W (S (S (clock s))) |}])
                products)
        (file_write W (S (S (S (clock s)))))]
     ++ match file_write W (S (S (S (clock s)))) with
        | Written =>
            [EvReply (msg_added product_details target_price)
               (reply_text_ok W (S (S (S (S (clock s)))))
                  (msg_added product_details target_price))]
        | _ => []
        end).
Proof.
  intros Hint Hurl Hreply Hfetch Hload.
  unfold add_product. rewrite Hint, Hurl. cbn [negb].
  unfold bind at 1. unfold reply_text at 1. rewrite Hreply.
  unfold bind at 1. rewrite get_product_details_run, Hfetch.
  unfold bind at 1.
  rewrite (@load_products_run (tick (tick s)) products Hload).
  assert (Hal : alerts_for
                  match dict_get user_id products with
                  | Some _ => products
                  | None => dict_set user_id [] products
                  end user_id = alerts_for products user_id).
  { unfold alerts_for. destruct (dict_get user_id products) eqn:E.
    - now rewrite E.
    - now rewrite dict_get_set_same. }
  assert (Hset : forall v,
            dict_set user_id v
              match dict_get user_id products with
              | Some _ => products
              | None => dict_set user_id [] products
              end = dict_set user_id v products).
  { intros v. destruct (dict_get user_id products); [reflexivity|].
    apply dict_set_set. }
  cbn zeta. unfold bind, now, save_products, reply_text.
  cbn [tick clock disk app]. rewrite Hal, Hset.
  assert (Hid : match extract_product_id url with
                | Some (c :: g) => c :: g
                | _ => str_of_int (Z.of_nat (length (alerts_for products user_id)))
                end
                = match extract_product_id url with
                  | Some pid => pid
                  | None => str_of_int (Z.of_nat (length (alerts_for products user_id)))
                  end).
  { pose proof (extract_product_id_truthy url) as Ht.
    destruct (extract_product_id url) as [[|c g]|]; try reflexivity.
    discriminate Ht. }
  rewrite Hid.
  destruct (file_write W (S (S (S (clock s))))); reflexivity.
Qed.

(** X4: arguments that fail a check are answered with one message and
    nothing else happens: no page is requested, the file is neither read
    nor written.  Fewer than two arguments give the usage text; otherwise
    a target price that [int] rejects gives the invalid-price text, even
    when the url is bad too; otherwise a url without "flipkart.com" gives
    the invalid-url text. *)
Theorem add_product_rejects (py : Runtime) (W : World) (user_id : pystr)
    (args : list pystr) (s : Sys) (text : pystr) :
  (length args < 2 /\ text = msg_usage_add)
  \/ (exists url price_arg more,
        args = url :: price_arg :: more
        /\ ((py_int py price_arg = None /\ text = msg_invalid_price)
            \/ (py_int py price_arg <> None
                /\ contains (lit "flipkart.com") url = false
                /\ text = msg_invalid_url))) ->
  add_product py W user_id args s
  = (if reply_text_ok W (clock s) text then Return tt else Raise,
     tick s, [EvReply text (reply_text_ok W (clock s) text)]).
Proof.
  intros [[Hlen ->] | (url & price_arg & more & -> & H)].
  - destruct args as [|a [|b args]]; cbn in Hlen; try lia; reflexivity.
  - unfold add_product.
    destruct H as [[Hint ->] | (Hint & Hurl & ->)].
    + now rewrite Hint.
    + destruct (py_int py price_arg); [|congruence].
      now rewrite Hurl.
Qed.

Lemma add_product_rejects_witness :
  add_product ascii_runtime Sample.cheap Sample.alice
    [lit "https://example.com/phone"; lit "cheap"] Sample.one_alert
  = (Return tt, tick Sample.one_alert, [EvReply msg_invalid_price true]).
Proof.
  apply (@add_product_rejects ascii_runtime Sample.cheap Sample.alice
           [lit "https://example.com/phone"; lit "cheap"] Sample.one_alert
           msg_invalid_price).
  right. exists (lit "https://example.com/phone"), (lit "cheap"), [].
  split; [reflexivity|]. left. split; reflexivity.
Defined.

(** [int] skips blanks and line breaks around a literal but not the
    separators U+001C to U+001F, which [str.strip] would remove: a target
    price that starts with one is refused. *)
Example separator_is_not_skipped :
  py_int ascii_runtime (lit " 7" ++ [10%N]) = Some 7%Z
  /\ strip (28%N :: lit "7") = lit "7"
  /\ py_int ascii_runtime (28%N :: lit "7") = None
  /\ py_int ascii_runtime (lit "7" ++ [31%N]) = None
  /\ events_of (add_product ascii_runtime Sample.cheap Sample.alice
                  [Sample.phone_url; 28%N :: lit "7"] Sample.one_alert)
     = [EvReply msg_invalid_price true].
Proof. repeat split; reflexivity. Qed.

(** X5: with accepted arguments, when the first reply fails nothing
    else happens; and when the page cannot be fetched the user is told so
    and the file is neither read nor written, so the handler returns even
    if the file is damaged. *)
Theorem add_product_fetch_fails (py : Runtime) (W : World)
    (user_id url price_arg : pystr) (more : list pystr) (s : Sys)
    (target_price : Z) :
  py_int py price_arg = Some target_price ->
  contains (lit "flipkart.com") url = true ->
  (reply_text_ok W (clock s) msg_fetching = false ->
   add_product py W user_id (url :: price_arg :: more) s
   = (Raise, tick s, [EvReply msg_fetching false]))
  /\ (reply_text_ok W (clock s) msg_fetching = true ->
      fetched py W (tick s) url = None ->
      add_product py W user_id (url :: price_arg :: more) s
      = (if reply_text_ok W (S (S (clock s))) msg_fetch_failed
         then Return tt else Raise,
         {| clock := S (S (S (clock s))); disk := disk s |},
         [EvReply msg_fetching true; EvGet url;
          EvReply msg_fetch_failed
            (reply_text_ok W (S (S (clock s))) msg_fetch_failed)])).
Proof.
  intros Hint Hurl. unfold add_product. rewrite Hint, Hurl. cbn [negb].
  split.
  - intros Hreply. unfold bind, reply_text. now rewrite Hreply.
  - intros Hreply Hfetch. unfold bind at 1. unfold reply_text at 1.
    rewrite Hreply. unfold bind at 1.
    rewrite get_product_details_run, Hfetch. reflexivity.
Qed.

Lemma add_product_fetch_fails_witness :
  py_int ascii_runtime (lit "1000") = Some 1000%Z
  /\ events_of
       (add_product ascii_runtime (Sample.shop (lit "Phone") (lit "sold out"))
          Sample.alice [Sample.phone_url; lit "1000"] (Sample.start Damaged))
     = [EvReply msg_fetching true; EvGet Sample.phone_url;
        EvReply msg_fetch_failed true].
Proof.
  split; [reflexivity|].
  destruct (@add_product_fetch_fails ascii_runtime
              (Sample.shop (lit "Phone") (lit "sold out")) Sample.alice
              Sample.phone_url (lit "1000") [] (Sample.start Damaged) 1000%Z
              eq_refl eq_refl) as [_ H].
  now rewrite (H eq_refl eq_refl).
Defined.

Lemma keys_dict_set (k : pystr) (v : list Alert.t) (d : Products) :
  keys (dict_set k v d)
  = match dict_get k d with
    | Some _ => keys d
    | None => keys d ++ [k]
    end.
Proof.
  unfold keys. induction d as [|[k' v'] d IH]; cbn; [reflexivity|].
  destruct (str_eqb k k'); cbn; [reflexivity|].
  rewrite IH. now destruct (dict_get k d).
Qed.

Lemma alerts_for_set_same (k : pystr) (v : list Alert.t) (d : Products) :
  alerts_for (dict_set k v d) k = v.
Proof. unfold alerts_for. now rewrite dict_get_set_same. Qed.

(** X6: whatever [add_product] hands to [save_products] differs from
    the loaded collection only in the caller's list, which is the old list
    with one alert at its end; the other users keep their lists and their
    order, and a caller who had no list is added after them. *)
Theorem add_product_frame (py : Runtime) (W : World) (user_id url price_arg : pystr)
    (more : list pystr) (s : Sys) (target_price : Z)
    (product_details : ProductDetails) (products products' : Products)
    (outcome : WriteOutcome) :
  py_int py price_arg = Some target_price ->
  contains (lit "flipkart.com") url = true ->
  reply_text_ok W (clock s) msg_fetching = true ->
  fetched py W (tick s) url = Some product_details ->
  loaded (disk s) = Some products ->
  In (EvSave products' outcome)
     (events_of (add_product py W user_id (url :: price_arg :: more) s)) ->
  (forall k, k <> user_id -> dict_get k products' = dict_get k products)
  /\ (exists alert,
        alerts_for products' user_id = alerts_for products user_id ++ [alert])
  /\ keys products'
     = match dict_get user_id products with
       | Some _ => keys products
       | None => keys products ++ [user_id]
       end
  /\ saves (events_of (add_product py W user_id (url :: price_arg :: more) s)) = 1.
Proof.
  intros Hint Hurl Hreply Hfetch Hload.
  rewrite (add_product_run py W user_id url price_arg more s target_price
             product_details products Hint Hurl Hreply Hfetch Hload).
  cbn [events_of snd app]. intros Hin.
  assert (Hp : products'
               = dict_set user_id
                   (alerts_for products user_id ++
                    [{| Alert.id :=
                          match extract_product_id url with
                          | Some pid => pid
                          | None =>
                              str_of_int
                                (Z.of_nat (length (alerts_for products user_id)))
                          end;
                        Alert.name := pd_name product_details;
                        Alert.url := url;
                        Alert.current_price := pd_price product_details;
                        Alert.target_price := target_price;
                        Alert.added_on := time_time W (S (S (clock s))) |}])
                   products).
  { destruct Hin as [H|[H|[H|H]]]; try discriminate H.
    - now injection H as <- _.
    - destruct (file_write W (S (S (S (clock s))))); cbn in H;
        intuition discriminate. }
  subst products'. repeat split.
  - intros k Hk. now apply dict_get_set_other.
  - eexists. apply alerts_for_set_same.
  - apply keys_dict_set.
  - destruct (file_write W (S (S (S (clock s))))); reflexivity.
Qed.

Lemma add_product_frame_witness :
  In (EvSave [(Sample.bob, [Sample.phone 1200 1000]);
              (Sample.alice,
               [{| Alert.id := lit "MOBXYZ"; Alert.name := lit "Phone X";
                   Alert.url := Sample.phone_url; Alert.current_price := 950;
                   Alert.target_price := 1000;
                   Alert.added_on := 1700000002 |}])] Written)
     (events_of (add_product ascii_runtime Sample.cheap Sample.alice
                   [Sample.phone_url; lit "1000"]
                   (Sample.start (Stored [(Sample.bob, [Sample.phone 1200 1000])]))))
  /\ keys [(Sample.bob, [Sample.phone 1200 1000]);
           (Sample.alice,
            [{| Alert.id := lit "MOBXYZ"; Alert.name := lit "Phone X";
                Alert.url := Sample.phone_url; Alert.current_price := 950;
                Alert.target_price := 1000;
                Alert.added_on := 1700000002 |}])]
     = [Sample.bob; Sample.alice].
Proof.
  assert (Hin :
    In (EvSave [(Sample.bob, [Sample.phone 1200 1000]);
                (Sample.alice,
                 [{| Alert.id := lit "MOBXYZ"; Alert.name := lit "Phone X";
                     Alert.url := Sample.phone_url; Alert.current_price := 950;
                     Alert.target_price := 1000;
                     Alert.added_on := 1700000002 |}])] Written)
       (events_of (add_product ascii_runtime Sample.cheap Sample.alice
                     [Sample.phone_url; lit "1000"]
                     (Sample.start (Stored [(Sample.bob, [Sample.phone 1200 1000])]))))).
  { right. right. left. reflexivity. }
  split; [exact Hin|].
  destruct (add_product_frame ascii_runtime Sample.cheap Sample.alice
              Sample.phone_url (lit "1000") []
              (Sample.start (Stored [(Sample.bob, [Sample.phone 1200 1000])]))
              1000%Z Sample.cheap_details
              [(Sample.bob, [Sample.phone 1200 1000])] _ _
              eq_refl eq_refl eq_refl eq_refl eq_refl Hin)
    as (_ & _ & Hkeys & _).
  exact Hkeys.
Defined.

(** ** Listing the alerts *)

Lemma startswith_app (needle rest : pystr) : startswith needle (needle ++ rest) = true.
Proof.
  induction needle as [|c needle IH]; cbn; [reflexivity|].
  now rewrite N.eqb_refl.
Qed.

Lemma contains_app (before needle after : pystr) :
  contains needle (before ++ needle ++ after) = true.
Proof.
  induction before as [|c before IH]; cbn [app].
  - destruct (needle ++ after) eqn:E; cbn; rewrite <- E, startswith_app;
      reflexivity.
  - cbn [contains]. rewrite IH. apply orb_true_r.
Qed.

Lemma listing_acc (i : nat) (alerts : list Alert.t) (message : pystr) :
  listing i alerts message = message ++ listing i alerts [].
Proof.
  revert i message; induction alerts as [|a alerts IH]; intros i message; cbn.
  - now rewrite app_nil_r.
  - rewrite (IH (S i) (message ++ listing_lines i a)).
    rewrite (IH (S i) (listing_lines i a)). now rewrite app_assoc.
Qed.

Lemma listing_at (pre : list Alert.t) (alert : Alert.t) (post : list Alert.t)
    (i : nat) (message : pystr) :
  listing i (pre ++ alert :: post) message
  = (message ++ listing i pre [])
    ++ listing_lines (i + length pre) alert
    ++ listing (S (i + length pre)) post [].
Proof.
  revert i message; induction pre as [|a pre IH]; intros i message.
  - cbn [app listing length]. rewrite Nat.add_0_r, app_nil_r.
    rewrite listing_acc. now rewrite app_assoc.
  - cbn [app listing length]. rewrite IH.
    rewrite (listing_acc (S i) pre (listing_lines i a)).
    rewrite Nat.add_succ_r. cbn [Nat.add]. now rewrite !app_assoc.
Qed.

(** X7: [list_products] answers with one message and changes nothing.
    A caller without alerts is told so.  Otherwise the message starts with
    the header and has, for the alert at each position, a line with that
    position counted from one and the alert's name, and a line with the
    alert's id. *)
Theorem list_products_shows (W : World) (user_id : pystr) (s : Sys)
    (products : Products) :
  loaded (disk s) = Some products ->
  (alerts_for products user_id = [] ->
   list_products W user_id s
   = (if reply_text_ok W (clock s) msg_no_alerts then Return tt else Raise,
      tick s, [EvReply msg_no_alerts (reply_text_ok W (clock s) msg_no_alerts)]))
  /\ (forall pre alert post,
        dict_get user_id products = Some (pre ++ alert :: post) ->
        exists text,
          list_products W user_id s
          = (if reply_text_ok W (clock s) text then Return tt else Raise,
             tick s, [EvReply text (reply_text_ok W (clock s) text)])
          /\ startswith msg_listing_header text = true
          /\ contains (str_of_int (Z.of_nat (length pre) + 1) ++ lit ". "
                       ++ Alert.name alert ++ nl) text = true
          /\ contains (lit "   ID: " ++ Alert.id alert ++ nl ++ nl) text = true).
Proof.
  intros Hload. unfold list_products, bind.
  rewrite (@load_products_run s products Hload). cbn [app].
  split.
  - unfold alerts_for. intros Hnone.
    destruct (dict_get user_id products) as [[|a l]|]; try discriminate;
      reflexivity.
  - intros pre alert post Hget. rewrite Hget.
    exists (listing 0 (pre ++ alert :: post) msg_listing_header).
    split; [destruct pre; reflexivity|].
    rewrite listing_at. cbn [Nat.add].
    split; [rewrite <- app_assoc; apply startswith_app|].
    split.
    + replace ((msg_listing_header ++ listing 0 pre [])
               ++ listing_lines (length pre) alert
               ++ listing (S (length pre)) post [])
        with ((msg_listing_header ++ listing 0 pre [])
              ++ (str_of_int (Z.of_nat (length pre) + 1) ++ lit ". "
                  ++ Alert.name alert ++ nl)
              ++ (lit "   Current Price: " ++ rupee
                  ++ str_of_int (Alert.current_price alert) ++ nl
                  ++ lit "   Target Price: " ++ rupee
                  ++ str_of_int (Alert.target_price alert) ++ nl
                  ++ lit "   ID: " ++ Alert.id alert ++ nl ++ nl
                  ++ listing (S (length pre)) post [])).
      * apply contains_app.
      * unfold listing_lines. now rewrite <- !app_assoc.
    + replace ((msg_listing_header ++ listing 0 pre [])
               ++ listing_lines (length pre) alert
               ++ listing (S (length pre)) post [])
        with ((msg_listing_header ++ listing 0 pre []
               ++ str_of_int (Z.of_nat (length pre) + 1) ++ lit ". "
               ++ Alert.name alert ++ nl
               ++ lit "   Current Price: " ++ rupee
               ++ str_of_int (Alert.current_price alert) ++ nl
               ++ lit "   Target Price: " ++ rupee
               ++ str_of_int (Alert.target_price alert) ++ nl)
              ++ (lit "   ID: " ++ Alert.id alert ++ nl ++ nl)
              ++ listing (S (length pre)) post []).
      * apply contains_app.
      * unfold listing_lines. now rewrite <- !app_assoc.
Qed.

Lemma list_products_shows_witness :
  loaded (disk Sample.one_alert) = Some [(Sample.alice, [Sample.phone 1200 1000])]
  /\ exists text,
       events_of (list_products Sample.cheap Sample.alice Sample.one_alert)
         = [EvReply text true]
       /\ contains (lit "1. Phone" ++ nl) text = true
       /\ contains (lit "   ID: MOBXYZ" ++ nl ++ nl) text = true.
Proof.
  split; [reflexivity|].
  destruct (list_products_shows Sample.cheap Sample.alice Sample.one_alert
              [(Sample.alice, [Sample.phone 1200 1000])] eq_refl) as [_ H].
  destruct (H [] (Sample.phone 1200 1000) [] eq_refl)
    as (text & Hrun & _ & Hname & Hid).
  exists text. rewrite Hrun. repeat split; assumption.
Defined.

(** ** What [remove_product] can write *)

Lemma pop_first_some (alert_id : pystr) (alerts : list Alert.t)
    (removed : Alert.t) (rest : list Alert.t) :
  pop_first alert_id alerts = Some (removed, rest) ->
  exists pre post,
    alerts = pre ++ removed :: post
    /\ Alert.id removed = alert_id
    /\ (forall a, In a pre -> Alert.id a <> alert_id)
    /\ rest = pre ++ post.
Proof.
  revert removed rest; induction alerts as [|a alerts IH]; intros removed rest;
    cbn; [discriminate|].
  destruct (str_eqb (Alert.id a) alert_id) eqn:E.
  - intros [= <- <-]. exists [], alerts. apply str_eqb_eq in E.
    repeat split; auto; intros b [].
  - destruct (pop_first alert_id alerts) as [[r rest']|]; [|discriminate].
    intros [= <- <-].
    destruct (IH r rest' eq_refl) as (pre & post & -> & Hid & Hpre & ->).
    exists (a :: pre), post. repeat split; auto.
    intros b [<-|Hb]; [now apply str_eqb_neq | now apply Hpre].
Qed.

(** X8: whatever [remove_product] hands to [save_products] is the
    loaded collection with exactly one alert taken out of the caller's
    list: the first one whose id is the argument.  The alerts before and
    after it stay in order, the other users keep their lists, no user is
    dropped even when the list becomes empty, and there is one save. *)
Theorem remove_product_writes (W : World) (user_id : pystr) (args : list pystr)
    (s : Sys) (products products' : Products) (outcome : WriteOutcome) :
  loaded (disk s) = Some products ->
  In (EvSave products' outcome) (events_of (remove_product W user_id args s)) ->
  exists alert_id more pre removed post,
    args = alert_id :: more
    /\ dict_get user_id products = Some (pre ++ removed :: post)
    /\ Alert.id removed = alert_id
    /\ (forall a, In a pre -> Alert.id a <> alert_id)
    /\ products' = dict_set user_id (pre ++ post) products
    /\ dict_get user_id products' = Some (pre ++ post)
    /\ (forall k, k <> user_id -> dict_get k products' = dict_get k products)
    /\ keys products' = keys products
    /\ saves (events_of (remove_product W user_id args s)) = 1.
Proof.
  intros Hload. unfold remove_product.
  destruct args as [|alert_id more].
  { cbn. intros [H|[]]; discriminate H. }
  unfold bind. rewrite (@load_products_run s products Hload). cbn [app].
  destruct (dict_get user_id products) as [[|a l]|] eqn:Hget;
    try (cbn; intros [H|[]]; discriminate H).
  destruct (pop_first alert_id (a :: l)) as [[removed rest]|] eqn:Hpop;
    [|cbn; intros [H|[]]; discriminate H].
  destruct (pop_first_some alert_id (a :: l) removed rest Hpop)
    as (pre & post & Hsplit & Hid & Hpre & ->).
  unfold save_products, reply_text.
  intros Hin.
  assert (Hp : products' = dict_set user_id (pre ++ post) products).
  { destruct (file_write W (clock s)); cbn in Hin;
      destruct Hin as [H|H]; try (now injection H as <- _);
      try destruct H as [H|[]]; try discriminate H; destruct H. }
  subst products'.
  exists alert_id, more, pre, removed, post. rewrite <- Hsplit.
  repeat split; auto.
  - apply dict_get_set_same.
  - intros k Hk. now apply dict_get_set_other.
  - rewrite keys_dict_set, Hget. reflexivity.
  - destruct (file_write W (clock s)); reflexivity.
Qed.

Lemma remove_product_writes_witness :
  In (EvSave [(Sample.alice, [])] Written)
     (events_of (remove_product Sample.cheap Sample.alice [lit "MOBXYZ"]
                   Sample.one_alert))
  /\ keys [(Sample.alice, @nil Alert.t)] = [Sample.alice].
Proof.
  assert (Hin : In (EvSave [(Sample.alice, [])] Written)
                  (events_of (remove_product Sample.cheap Sample.alice
                                [lit "MOBXYZ"] Sample.one_alert)))
    by (left; reflexivity).
  split; [exact Hin|].
  destruct (remove_product_writes Sample.cheap Sample.alice [lit "MOBXYZ"]
              Sample.one_alert [(Sample.alice, [Sample.phone 1200 1000])]
              [(Sample.alice, [])] Written eq_refl Hin)
    as (aid & more & pre & removed & post & _ & _ & _ & _ & _ & _ & _ & Hkeys & _).
  exact Hkeys.
Defined.

(** ** Adding, then removing *)

Lemma remove_product_match_run (W : World) (user_id alert_id : pystr)
    (more : list pystr) (s : Sys) (products : Products)
    (pre : list Alert.t) (removed : Alert.t) (post : list Alert.t) :
  loaded (disk s) = Some products ->
  dict_get user_id products = Some (pre ++ removed :: post) ->
  Alert.id removed = alert_id ->
  (forall a, In a pre -> Alert.id a <> alert_id) ->
  remove_product W user_id (alert_id :: more) s
  = (match file_write W (clock s) with
     | Written =>
         if reply_text_ok W (S (clock s)) (msg_removed removed)
         then Return tt else Raise
     | _ => Raise
     end,
     {| clock := match file_write W (clock s) with
                 | Written => S (S (clock s))
                 | _ => S (clock s)
                 end;
        disk := disk_after (file_write W (clock s))
                  (dict_set user_id (pre ++ post) products) (disk s) |},
     EvSave (dict_set user_id (pre ++ post) products) (file_write W (clock s))
     :: match file_write W (clock s) with
        | Written =>
            [EvReply (msg_removed removed)
               (reply_text_ok W (S (clock s)) (msg_removed removed))]
        | _ => []
        end).
Proof.
  intros Hload Hget Hid Hpre. unfold remove_product, bind.
  rewrite (@load_products_run s products Hload). cbn [app]. rewrite Hget.
  pose proof (@pop_first_match alert_id pre removed post Hpre Hid) as Hpop.
  destruct (pre ++ removed :: post) as [|a0 l0] eqn:E.
  { destruct pre; discriminate E. }
  rewrite Hpop. unfold save_products, reply_text.
  destruct (file_write W (clock s)); reflexivity.
Qed.

Lemma dict_set_same_value (k : pystr) (v : list Alert.t) (d : Products) :
  dict_get k d = Some v -> dict_set k v d = d.
Proof.
  induction d as [|[k' v'] d IH]; cbn; [discriminate|].
  destruct (str_eqb k k'); [now intros [= ->] | intros H; now rewrite IH].
Qed.

Lemma dict_set_absent (k : pystr) (v : list Alert.t) (d : Products) :
  dict_get k d = None -> dict_set k v d = d ++ [(k, v)].
Proof.
  induction d as [|[k' v'] d IH]; cbn; [reflexivity|].
  destruct (str_eqb k k'); [discriminate | intros H; now rewrite IH].
Qed.

(** X9: an alert added and then removed by its id leaves the collection
    as it was loaded, provided no alert of the caller already had that id:
    the collection handed to the second save is the original one, except
    that a caller who had no list now has an empty one. *)
Theorem add_then_remove (py : Runtime) (W : World) (user_id url price_arg : pystr)
    (more : list pystr) (s : Sys) (target_price : Z)
    (product_details : ProductDetails) (products : Products) :
  py_int py price_arg = Some target_price ->
  contains (lit "flipkart.com") url = true ->
  reply_text_ok W (clock s) msg_fetching = true ->
  fetched py W (tick s) url = Some product_details ->
  loaded (disk s) = Some products ->
  file_write W (S (S (S (clock s)))) = Written ->
  (forall a, In a (alerts_for products user_id) ->
             Alert.id a <> new_id url products user_id) ->
  hd_error
    (events_of
       (remove_product W user_id [new_id url products user_id]
          (state_of (add_product py W user_id (url :: price_arg :: more) s))))
  = Some (EvSave
            match dict_get user_id products with
            | Some _ => products
            | None => products ++ [(user_id, [])]
            end
            (file_write W (S (S (S (S (S (clock s)))))))).
Proof.
  intros Hint Hurl Hreply Hfetch Hload Hw Hfresh.
  rewrite (add_product_run py W user_id url price_arg more s target_price
             product_details products Hint Hurl Hreply Hfetch Hload).
  rewrite Hw. cbn [state_of fst snd disk_after].
  erewrite (remove_product_match_run W user_id (new_id url products user_id) []
              _ _ (alerts_for products user_id) _ []);
    [ | reflexivity | apply dict_get_set_same | reflexivity | exact Hfresh].
  cbn [events_of snd hd_error clock]. rewrite app_nil_r, dict_set_set.
  do 2 f_equal. unfold alerts_for.
  destruct (dict_get user_id products) as [l|] eqn:Hget.
  - now apply dict_set_same_value.
  - now apply dict_set_absent.
Qed.

Lemma add_then_remove_witness :
  py_int ascii_runtime (lit "1000") = Some 1000%Z
  /\ hd_error
       (events_of
          (remove_product Sample.cheap Sample.bob [lit "MOBXYZ"]
             (state_of (add_product ascii_runtime Sample.cheap Sample.bob
                          [Sample.phone_url; lit "1000"] Sample.one_alert))))
     = Some (EvSave [(Sample.alice, [Sample.phone 1200 1000]); (Sample.bob, [])]
               Written).
Proof.
  split; [reflexivity|].
  apply (add_then_remove ascii_runtime Sample.cheap Sample.bob Sample.phone_url
           (lit "1000") [] Sample.one_alert 1000%Z Sample.cheap_details
           [(Sample.alice, [Sample.phone 1200 1000])]
           eq_refl eq_refl eq_refl eq_refl eq_refl eq_refl).
  intros a [].
Defined.

(** X10: when an older alert of the caller already has the id of the
    alert just added, removing by that id takes the older one out and
    leaves the new one at the end of the list. *)
Theorem add_then_remove_takes_older (py : Runtime) (W : World)
    (user_id url price_arg : pystr) (more : list pystr) (s : Sys)
    (target_price : Z) (product_details : ProductDetails) (products : Products)
    (pre : list Alert.t) (older : Alert.t) (post : list Alert.t) :
  py_int py price_arg = Some target_price ->
  contains (lit "flipkart.com") url = true ->
  reply_text_ok W (clock s) msg_fetching = true ->
  fetched py W (tick s) url = Some product_details ->
  loaded (disk s) = Some products ->
  file_write W (S (S (S (clock s)))) = Written ->
  alerts_for products user_id = pre ++ older :: post ->
  Alert.id older = new_id url products user_id ->
  (forall a, In a pre -> Alert.id a <> new_id url products user_id) ->
  exists alert,
    Alert.id alert = new_id url products user_id
    /\ Alert.url alert = url
    /\ Alert.added_on alert = time_time W (S (S (clock s)))
    /\ hd_error
         (events_of
            (remove_product W user_id [new_id url products user_id]
               (state_of (add_product py W user_id (url :: price_arg :: more) s))))
       = Some (EvSave (dict_set user_id (pre ++ post ++ [alert]) products)
                 (file_write W (S (S (S (S (S (clock s)))))))).
Proof.
  intros Hint Hurl Hreply Hfetch Hload Hw Hsplit Hid Hpre.
  rewrite (add_product_run py W user_id url price_arg more s target_price
             product_details products Hint Hurl Hreply Hfetch Hload).
  rewrite Hw. cbn [state_of fst snd disk_after].
  eexists {| Alert.id := _; Alert.name := _; Alert.url := _;
             Alert.current_price := _; Alert.target_price := _;
             Alert.added_on := _ |}.
  cbn [Alert.id Alert.url Alert.added_on].
  do 3 (split; [reflexivity|]).
  match goal with
  | |- context [dict_set user_id (alerts_for products user_id ++ [?a]) products] =>
      set (a0 := a)
  end.
  assert (Hget1 :
    dict_get user_id
      (dict_set user_id (alerts_for products user_id ++ [a0]) products)
    = Some (pre ++ older :: (post ++ [a0]))).
  { rewrite dict_get_set_same. f_equal.
    clearbody a0. rewrite Hsplit, <- app_assoc. reflexivity. }
  erewrite (remove_product_match_run W user_id (new_id url products user_id) []
              _ _ pre older (post ++ [a0]));
    [ | reflexivity | exact Hget1 | exact Hid | exact Hpre].
  cbn [events_of snd hd_error clock]. rewrite dict_set_set.
  reflexivity.
Qed.

Lemma add_then_remove_takes_older_witness :
  Alert.id (Sample.phone 1200 1000)
    = new_id Sample.phone_url [(Sample.alice, [Sample.phone 1200 1000])] Sample.alice
  /\ exists alert,
       Alert.added_on alert = 1700000002%Z
       /\ hd_error
            (events_of
               (remove_product Sample.cheap Sample.alice [lit "MOBXYZ"]
                  (state_of (add_product ascii_runtime Sample.cheap Sample.alice
                               [Sample.phone_url; lit "1000"] Sample.one_alert))))
          = Some (EvSave [(Sample.alice, [alert])] Written).
Proof.
  split; [reflexivity|].
  destruct (add_then_remove_takes_older ascii_runtime Sample.cheap Sample.alice
              Sample.phone_url (lit "1000") [] Sample.one_alert 1000%Z
              Sample.cheap_details [(Sample.alice, [Sample.phone 1200 1000])]
              [] (Sample.phone 1200 1000) []
              eq_refl eq_refl eq_refl eq_refl eq_refl eq_refl eq_refl eq_refl
              (fun a (H : In a []) => match H with end))
    as (alert & _ & _ & Hon & Hev).
  exists alert. split; [exact Hon | exact Hev].
Defined.

(** ** What a cycle returns, keeps and sends *)

Lemma scan_not_save (evs : list Event) (products : Products)
    (outcome : WriteOutcome) :
  Forall scan_event evs -> ~ In (EvSave products outcome) evs.
Proof.
  intros Hs Hin. rewrite Forall_forall in Hs. exact (Hs _ Hin).
Qed.

(** X11: [check_all_prices] returns [True] exactly when the collection
    was written, which needs a dispatch attempt before it; it returns
    [False] exactly when the file could be loaded and nothing was
    dispatched; and it raises exactly when the file cannot be loaded or
    the save fails. *)
Theorem check_all_prices_returns (py : Runtime) (W : World)
    (specific_users : option (list pystr)) (s : Sys) :
  (result_of (check_all_prices py W specific_users s) = Return true
   <-> exists products,
         In (EvSave products Written)
            (events_of (check_all_prices py W specific_users s)))
  /\ (result_of (check_all_prices py W specific_users s) = Return true ->
      1 <= sends (events_of (check_all_prices py W specific_users s)))
  /\ (result_of (check_all_prices py W specific_users s) = Return false
      <-> loaded (disk s) <> None
          /\ sends (events_of (check_all_prices py W specific_users s)) = 0)
  /\ (result_of (check_all_prices py W specific_users s) = Raise
      <-> loaded (disk s) = None
          \/ exists products outcome,
               In (EvSave products outcome)
                  (events_of (check_all_prices py W specific_users s))
               /\ outcome <> Written).
Proof.
  destruct (loaded (disk s)) as [products0|] eqn:Hload.
  - destruct (cycle_shape py W specific_users s Hload)
      as (p & f & s1 & e1 & Hrun & Hd & Hs & Hf & Hu & Hg & Hcycle).
    rewrite Hcycle.
    destruct (scan_send_crossings Hs) as (_ & Hsome & _).
    assert (Hnosave : forall q o, ~ In (EvSave q o) e1)
      by (intros q o; now apply scan_not_save).
    destruct f; cbn [result_of events_of fst snd].
    + assert (Hsends : 1 <= sends e1) by (apply Hsome; congruence).
      assert (Hin : forall q o,
                In (EvSave q o) (e1 ++ [EvSave p (file_write W (clock s1))])
                -> o = file_write W (clock s1)).
      { intros q o Hin. apply in_app_or in Hin.
        destruct Hin as [Hin|[Hin|[]]]; [now apply Hnosave in Hin|].
        now injection Hin as _ <-. }
      assert (Hlast : In (EvSave p (file_write W (clock s1)))
                        (e1 ++ [EvSave p (file_write W (clock s1))]))
        by (apply in_or_app; right; now left).
      split; [|split; [|split]].
      * split.
        -- intros Hr. exists p.
           destruct (file_write W (clock s1)); try discriminate Hr. exact Hlast.
        -- intros [q Hq]. apply Hin in Hq. now rewrite <- Hq.
      * intros _. rewrite sends_app. lia.
      * split.
        -- intros Hr. destruct (file_write W (clock s1)); discriminate Hr.
        -- intros [_ H0]. rewrite sends_app in H0. lia.
      * split.
        -- intros Hr. right. exists p, (file_write W (clock s1)).
           split; [exact Hlast|].
           intros Hw. rewrite Hw in Hr. discriminate Hr.
        -- intros [H|(q & o & Hq & Ho)]; [discriminate H|].
           apply Hin in Hq. subst o.
           destruct (file_write W (clock s1)); congruence.
    + assert (Hsends : sends e1 = 0).
      { destruct (sends e1) eqn:E; [reflexivity|].
        assert (existsb is_send e1 = true) by (apply Hsome; lia). congruence. }
      repeat split; try discriminate; try congruence.
      * intros [q Hq]. now apply Hnosave in Hq.
      * intros [H|(q & o & Hq & _)]; [discriminate | now apply Hnosave in Hq].
  - rewrite check_all_prices_run, Hload. cbn [result_of events_of fst snd].
    repeat split; try discriminate; auto.
    + intros [q []].
    + intros [H _]. congruence.
Qed.

Lemma frozen_after_fetch (a : Alert.t) (r : option ProductDetails) :
  frozen (fst (after_fetch a r)) = frozen a.
Proof. rewrite after_fetch_alert. now destruct r. Qed.

Lemma check_alerts_frozen (py : Runtime) (W : World) (alerts : list Alert.t)
    (s : Sys) :
  map frozen (alerts_of (check_alerts py W alerts [] s)) = map frozen alerts.
Proof.
  revert s; induction alerts as [|a rest IH]; intros s; [reflexivity|].
  rewrite check_alerts_cons. unfold alerts_of at 1, result_of; cbn [fst snd map].
  now rewrite IH, frozen_after_fetch.
Qed.

Lemma shape_dict_set (k : pystr) (v l : list Alert.t) (d : Products) :
  dict_get k d = Some l -> map frozen v = map frozen l ->
  shape (dict_set k v d) = shape d.
Proof.
  intros Hget Hv. unfold shape.
  induction d as [|[k' v'] d IH]; cbn in *; [discriminate|].
  destruct (str_eqb k k'); cbn.
  - injection Hget as ->. now rewrite Hv.
  - now rewrite (IH Hget).
Qed.

Lemma check_user_shape (py : Runtime) (W : World) (u : pystr) (products : Products)
    (f : bool) (s : Sys) (products' : Products) (f' : bool) (s' : Sys)
    (evs : list Event) :
  check_user py W u products f s = (Return (products', f'), s', evs) ->
  shape products' = shape products.
Proof.
  rewrite check_user_run.
  destruct (dict_get u products) as [alerts|] eqn:Hget.
  - cbn zeta.
    destruct (updates_of (check_alerts py W alerts [] s));
      intros [= <- _ _ _];
      apply (shape_dict_set u _ alerts); auto using check_alerts_frozen.
  - now intros [= <- _ _ _].
Qed.

Lemma check_users_shape (py : Runtime) (W : World) (users : list pystr)
    (products : Products) (f : bool) (s : Sys)
    (products' : Products) (f' : bool) (s' : Sys) (evs : list Event) :
  check_users py W users products f s = (Return (products', f'), s', evs) ->
  shape products' = shape products.
Proof.
  revert products f s products' f' s' evs.
  induction users as [|u users IH]; intros products f s products' f' s' evs.
  - cbn. now intros [= <- _ _ _].
  - cbn [check_users]. unfold bind. intros Hrun.
    destruct (check_user_ok py W u products f s) as (p1 & f1 & s1 & e1 & E1 & _).
    rewrite E1 in Hrun.
    destruct (check_users_ok py W users p1 f1 s1) as (p2 & f2 & s2 & e2 & E2 & _).
    rewrite E2 in Hrun. injection Hrun as <- _ _ _.
    rewrite (IH _ _ _ _ _ _ _ E2). exact (check_user_shape _ _ _ _ _ _ _ _ _ _ E1).
Qed.

(** X12: a cycle changes current prices and nothing else.  The
    collection it hands to [save_products] has the users of the loaded
    one in the same order, each with as many alerts, and every alert has
    its id, name, url, target price and creation time as before. *)
Theorem cycle_keeps_shape (py : Runtime) (W : World)
    (specific_users : option (list pystr)) (s : Sys)
    (products0 products : Products) (outcome : WriteOutcome) :
  loaded (disk s) = Some products0 ->
  In (EvSave products outcome)
     (events_of (check_all_prices py W specific_users s)) ->
  shape products = shape products0
  /\ keys products = keys products0
  /\ (forall k, length (alerts_for products k) = length (alerts_for products0 k)).
Proof.
  intros Hload Hin.
  destruct (cycle_shape py W specific_users s Hload)
    as (p & f & s1 & e1 & Hrun & Hd & Hs & Hf & Hu & Hg & Hcycle).
  rewrite Hcycle in Hin.
  assert (Hp : products = p).
  { destruct f; cbn [events_of snd] in Hin.
    - apply in_app_or in Hin. destruct Hin as [Hin|[Hin|[]]].
      + now apply (scan_not_save _ _ _ Hs) in Hin.
      + now injection Hin as <- _.
    - now apply (scan_not_save _ _ _ Hs) in Hin. }
  subst p. pose proof (check_users_shape _ _ _ _ _ _ _ _ _ _ Hrun) as Hshape.
  split; [exact Hshape|]. split.
  - unfold keys. apply (f_equal (map fst)) in Hshape. unfold shape in Hshape.
    rewrite !map_map in Hshape. exact Hshape.
  - intros k. specialize (Hu k). unfold urls_in, alerts_for in *.
    apply (f_equal (@length pystr)) in Hu.
    destruct (dict_get k products), (dict_get k products0);
      rewrite ?length_map in Hu; exact Hu.
Qed.

Lemma cycle_keeps_shape_witness :
  In (EvSave [(Sample.alice, [Sample.phone 950 1000])] Written)
     (events_of (check_all_prices ascii_runtime Sample.cheap None Sample.one_alert))
  /\ shape [(Sample.alice, [Sample.phone 950 1000])]
     = shape [(Sample.alice, [Sample.phone 1200 1000])].
Proof.
  assert (Hin : In (EvSave [(Sample.alice, [Sample.phone 950 1000])] Written)
                  (events_of (check_all_prices ascii_runtime Sample.cheap None
                                Sample.one_alert)))
    by (right; right; left; reflexivity).
  split; [exact Hin|].
  apply (cycle_keeps_shape ascii_runtime Sample.cheap None Sample.one_alert
           [(Sample.alice, [Sample.phone 1200 1000])]
           [(Sample.alice, [Sample.phone 950 1000])] Written eq_refl Hin).
Defined.

Lemma chats_app (e1 e2 : list Event) : chats (e1 ++ e2) = chats e1 ++ chats e2.
Proof. unfold chats. apply flat_map_app. Qed.

Lemma chats_gets (alerts : list Alert.t) :
  chats (map (fun a => EvGet (Alert.url a)) alerts) = [].
Proof. induction alerts; cbn; auto. Qed.

Lemma in_gets_not_send (alerts : list Alert.t) (c t : pystr)
    (cr : list UpdateInfo.t) (d : bool) :
  ~ In (EvSend c t cr d) (map (fun a => EvGet (Alert.url a)) alerts).
Proof. induction alerts as [|a l IH]; cbn; [tauto|]. intros [H|H]; [discriminate|auto]. Qed.

Lemma check_user_chats (py : Runtime) (W : World) (u : pystr) (products : Products)
    (f : bool) (s : Sys) :
  (chats (events_of (check_user py W u products f s)) = []
   \/ chats (events_of (check_user py W u products f s)) = [u])
  /\ (forall c t cr d,
        In (EvSend c t cr d) (events_of (check_user py W u products f s)) ->
        c = u /\ t = alert_message cr /\ cr <> []
        /\ cr = updates_of (check_alerts py W (alerts_for products u) [] s)).
Proof.
  rewrite check_user_run. unfold alerts_for.
  destruct (dict_get u products) as [alerts|]; [|cbn; split; [auto|tauto]].
  cbn zeta. pose proof (check_alerts_events py W alerts s) as Hev.
  destruct (updates_of (check_alerts py W alerts [] s)) as [|x xs];
    cbn [events_of snd]; rewrite Hev.
  - split; [left; apply chats_gets|].
    intros c t cr d H. now apply in_gets_not_send in H.
  - split.
    + right. rewrite chats_app, chats_gets. reflexivity.
    + intros c t cr d H. apply in_app_or in H.
      destruct H as [H|[H|[]]]; [now apply in_gets_not_send in H|].
      injection H as <- <- <- _. repeat split. discriminate.
Qed.

Lemma check_users_chats (py : Runtime) (W : World) (users : list pystr)
    (products : Products) (f : bool) (s : Sys) :
  incl (chats (events_of (check_users py W users products f s))) users
  /\ (NoDup users ->
      NoDup (chats (events_of (check_users py W users products f s))))
  /\ (forall c t cr d,
        In (EvSend c t cr d) (events_of (check_users py W users products f s)) ->
        In c users /\ t = alert_message cr /\ cr <> []).
Proof.
  revert products f s; induction users as [|u users IH]; intros products f s.
  - cbn. repeat split; auto using incl_nil_l, NoDup_nil; tauto.
  - cbn [check_users]. unfold bind.
    destruct (check_user_chats py W u products f s) as (Hc1 & Hs1).
    destruct (check_user_ok py W u products f s) as (p1 & f1 & s1 & e1 & E1 & _).
    rewrite E1 in Hc1, Hs1 |- *. cbn [events_of snd] in Hc1, Hs1.
    destruct (IH p1 f1 s1) as (Hincl & Hnodup & Hs2).
    destruct (check_users py W users p1 f1 s1) as [[r2 s2] e2].
    cbn [events_of snd] in *. rewrite chats_app.
    split; [|split].
    + apply incl_app.
      * destruct Hc1 as [-> | ->]; [apply incl_nil_l|].
        intros x [<-|[]]. now left.
      * now apply incl_tl.
    + intros Hnd. inversion Hnd as [|x l Hnotin Hnd']; subst.
      destruct Hc1 as [-> | ->]; cbn [app]; [now apply Hnodup|].
      constructor; [|now apply Hnodup].
      intros Hin. apply Hnotin. now apply Hincl.
    + intros c t cr d Hin. apply in_app_or in Hin. destruct Hin as [Hin|Hin].
      * destruct (Hs1 _ _ _ _ Hin) as (-> & Ht & Hcr & _).
        repeat split; auto. now left.
      * destruct (Hs2 _ _ _ _ Hin) as (Hc & Ht & Hcr).
        repeat split; auto. now right.
Qed.

Lemma sends_chats (evs : list Event) : sends evs = length (chats evs).
Proof.
  unfold sends, chats. induction evs as [|e evs IH]; [reflexivity|].
  destruct e; cbn; auto.
Qed.

(** X13: in a cycle every message goes to one of the users checked, its
    text is built from a non-empty list of crossings, and a user who is
    listed once gets at most one message: all the crossings of a user go
    into a single message. *)
Theorem one_message_per_user (py : Runtime) (W : World)
    (specific_users : option (list pystr)) (s : Sys) (products0 : Products) :
  loaded (disk s) = Some products0 ->
  incl (chats (events_of (check_all_prices py W specific_users s)))
       (users_to_check specific_users products0)
  /\ (NoDup (users_to_check specific_users products0) ->
      NoDup (chats (events_of (check_all_prices py W specific_users s)))
      /\ sends (events_of (check_all_prices py W specific_users s))
         <= length (users_to_check specific_users products0))
  /\ (forall c t cr d,
        In (EvSend c t cr d)
           (events_of (check_all_prices py W specific_users s)) ->
        In c (users_to_check specific_users products0)
        /\ t = alert_message cr /\ cr <> []).
Proof.
  intros Hload.
  destruct (cycle_shape py W specific_users s Hload)
    as (p & f & s1 & e1 & Hrun & _ & _ & _ & _ & _ & Hcycle).
  destruct (check_users_chats py W (users_to_check specific_users products0)
              products0 false s) as (Hincl & Hnodup & Hsend).
  rewrite Hrun in Hincl, Hnodup, Hsend. cbn [events_of snd] in Hincl, Hnodup, Hsend.
  assert (Hchats : chats (events_of (check_all_prices py W specific_users s))
                   = chats e1).
  { rewrite Hcycle. destruct f; cbn [events_of snd]; [|reflexivity].
    rewrite chats_app. cbn. apply app_nil_r. }
  rewrite sends_chats, Hchats.
  split; [exact Hincl|]. split.
  - intros Hnd. split; [now apply Hnodup|].
    apply NoDup_incl_length; [now apply Hnodup | exact Hincl].
  - intros c t cr d Hin. apply (Hsend c t cr d).
    rewrite Hcycle in Hin. destruct f; cbn [events_of snd] in Hin; [|exact Hin].
    apply in_app_or in Hin. destruct Hin as [Hin|[Hin|[]]];
      [exact Hin | discriminate Hin].
Qed.

Lemma one_message_per_user_witness :
  loaded (disk Sample.one_alert) = Some [(Sample.alice, [Sample.phone 1200 1000])]
  /\ incl (chats (events_of
              (check_all_prices ascii_runtime Sample.cheap None Sample.one_alert)))
          [Sample.alice].
Proof.
  split; [reflexivity|].
  apply (one_message_per_user ascii_runtime Sample.cheap None Sample.one_alert
           [(Sample.alice, [Sample.phone 1200 1000])] eq_refl).
Defined.

(** ** The manual check *)

Lemma check_prices_run (py : Runtime) (W : World) (user_id : pystr) (s : Sys) :
  check_prices py W user_id s
  = if reply_text_ok W (clock s) msg_checking
    then (match result_of (check_all_prices py W (Some [user_id]) (tick s)) with
          | Return _ => Return tt
          | Raise => Raise
          end,
          state_of (check_all_prices py W (Some [user_id]) (tick s)),
          EvReply msg_checking true
          :: events_of (check_all_prices py W (Some [user_id]) (tick s)))
    else (Raise, tick s, [EvReply msg_checking false]).
Proof.
  unfold check_prices, bind, reply_text.
  destruct (reply_text_ok W (clock s) msg_checking); [|reflexivity].
  destruct (check_all_prices py W (Some [user_id]) (tick s)) as [[[r|] s1] e1];
    cbn; now rewrite ?app_nil_r.
Qed.

Lemma fetched_urls_reply (t : pystr) (d : bool) (l : list Event) :
  fetched_urls (EvReply t d :: l) = fetched_urls l.
Proof. reflexivity. Qed.

Lemma chats_reply (t : pystr) (d : bool) (l : list Event) :
  chats (EvReply t d :: l) = chats l.
Proof. reflexivity. Qed.

(** X14: [/check] first replies; if that fails no cycle runs.  Otherwise
    the pages requested are exactly those of the caller's alerts, in stored
    order; a message, if any, goes to the caller; whatever is saved has the
    lists of all other users as they were loaded; the handler raises
    exactly when the cycle does and otherwise returns nothing, whatever the
    cycle found; and for a caller without alerts nothing at all follows the
    first reply. *)
Theorem check_prices_scope (py : Runtime) (W : World) (user_id : pystr) (s : Sys)
    (products : Products) :
  loaded (disk s) = Some products ->
  (reply_text_ok W (clock s) msg_checking = false ->
   check_prices py W user_id s = (Raise, tick s, [EvReply msg_checking false]))
  /\ (reply_text_ok W (clock s) msg_checking = true ->
      fetched_urls (events_of (check_prices py W user_id s))
        = urls_in products user_id
      /\ incl (chats (events_of (check_prices py W user_id s))) [user_id]
      /\ (forall products' outcome,
            In (EvSave products' outcome) (events_of (check_prices py W user_id s)) ->
            forall k, k <> user_id -> dict_get k products' = dict_get k products)
      /\ (result_of (check_prices py W user_id s) = Raise
          <-> result_of (check_all_prices py W (Some [user_id]) (tick s)) = Raise)
      /\ (alerts_for products user_id = [] ->
          check_prices py W user_id s
          = (Return tt, tick s, [EvReply msg_checking true]))).
Proof.
  intros Hload. rewrite check_prices_run. split.
  - now intros ->.
  - intros ->. cbn [events_of snd].
    assert (Hload' : loaded (disk (tick s)) = Some products) by exact Hload.
    destruct (cycle_shape py W (Some [user_id]) (tick s) Hload')
      as (p & f & s1 & e1 & Hrun & Hd & Hs & Hf & Hu & Hg & Hcycle).
    cbn [users_to_check] in Hrun, Hg.
    destruct (check_users_chats py W [user_id] products false (tick s))
      as (Hincl & _ & _).
    rewrite Hrun in Hincl. cbn [events_of snd] in Hincl.
    assert (Hexp : expected_urls [user_id] products = urls_in products user_id).
    { unfold expected_urls. cbn. apply app_nil_r. }
    assert (Hev : events_of (check_all_prices py W (Some [user_id]) (tick s))
                  = e1 ++ (if f then [EvSave p (file_write W (clock s1))] else [])).
    { rewrite Hcycle. destruct f; cbn [events_of snd]; now rewrite ?app_nil_r. }
    rewrite Hev.
    split; [|split; [|split; [|split]]].
    + rewrite fetched_urls_reply, fetched_urls_app, Hg, Hexp.
      destruct f; cbn; apply app_nil_r.
    + rewrite chats_reply, chats_app.
      destruct f; cbn; now rewrite app_nil_r.
    + intros products' outcome [Hin|Hin]; [discriminate Hin|].
      assert (Hp : products' = p).
      { apply in_app_or in Hin. destruct Hin as [Hin|Hin].
        - now apply (scan_not_save _ _ _ Hs) in Hin.
        - destruct f; [|destruct Hin].
          destruct Hin as [Hin|[]]. now injection Hin as <- _. }
      subst p. intros k Hk.
      apply (@check_users_keeps_others py W k [user_id] products false (tick s)
               products' f s1 e1 Hrun).
      intros [H|[]]. now apply Hk.
    + cbn [result_of fst].
      destruct (result_of (check_all_prices py W (Some [user_id]) (tick s)));
        split; intros H; try discriminate H; reflexivity.
    + intros Hnone.
      assert (Hq : exists p0,
                check_users py W [user_id] products false (tick s)
                = (Return (p0, false), tick s, [])).
      { cbn [check_users]. unfold bind. rewrite check_user_run.
        unfold alerts_for in Hnone.
        destruct (dict_get user_id products) as [alerts|]; [subst alerts|];
          eexists; reflexivity. }
      destruct Hq as [p0 Hq]. rewrite Hq in Hrun.
      injection Hrun as <- <- <- <-. rewrite Hcycle. reflexivity.
Qed.

Lemma check_prices_scope_witness :
  loaded (disk (Sample.start (Stored [(Sample.bob, [Sample.phone 1200 1000])])))
    = Some [(Sample.bob, [Sample.phone 1200 1000])]
  /\ check_prices ascii_runtime Sample.cheap Sample.alice
       (Sample.start (Stored [(Sample.bob, [Sample.phone 1200 1000])]))
     = (Return tt,
        tick (Sample.start (Stored [(Sample.bob, [Sample.phone 1200 1000])])),
        [EvReply msg_checking true]).
Proof.
  split; [reflexivity|].
  destruct (check_prices_scope ascii_runtime Sample.cheap Sample.alice
              (Sample.start (Stored [(Sample.bob, [Sample.phone 1200 1000])]))
              [(Sample.bob, [Sample.phone 1200 1000])] eq_refl) as [_ H].
  destruct (H eq_refl) as (_ & _ & _ & _ & Hnone).
  apply Hnone. reflexivity.
Defined.

(** ** A store in which every price is at or below its target *)

Lemma settled_no_hit (a : Alert.t) (r : option ProductDetails) :
  settled a -> snd (after_fetch a r) = None.
Proof.
  unfold settled. intros H. destruct r as [pd|]; [|reflexivity].
  unfold after_fetch. cbn [Alert.set_current_price Alert.target_price].
  assert (E : (Alert.current_price a >? Alert.target_price a)%Z = false).
  { rewrite Z.gtb_ltb. now apply Z.ltb_ge. }
  now rewrite E, andb_false_r.
Qed.

Lemma check_alerts_settled (py : Runtime) (W : World) (alerts : list Alert.t)
    (s : Sys) :
  Forall settled alerts -> updates_of (check_alerts py W alerts [] s) = [].
Proof.
  intros H; revert s; induction H as [|a rest Ha _ IH]; intros s; [reflexivity|].
  rewrite check_alerts_cons. unfold updates_of at 1, result_of; cbn [fst snd].
  now rewrite IH, (settled_no_hit a _ Ha).
Qed.

Lemma check_users_settled (py : Runtime) (W : World) (users : list pystr)
    (products : Products) (f : bool) (s : Sys) :
  NoDup users ->
  (forall u, In u users -> all_settled products u) ->
  existsb is_send (events_of (check_users py W users products f s)) = false.
Proof.
  revert products f s; induction users as [|u users IH];
    intros products f s Hnd Hall; [reflexivity|].
  inversion Hnd as [|x l Hnotin Hnd']; subst.
  cbn [check_users]. unfold bind.
  pose proof (check_user_run py W u products f s) as Hrun.
  assert (Hu : all_settled products u) by (apply Hall; now left).
  unfold all_settled, alerts_for in Hu.
  destruct (dict_get u products) as [alerts|] eqn:Hget.
  - cbn zeta in Hrun. rewrite (check_alerts_settled py W alerts s Hu) in Hrun.
    rewrite Hrun.
    pose proof (IH (dict_set u (alerts_of (check_alerts py W alerts [] s)) products)
                  f (state_of (check_alerts py W alerts [] s)) Hnd') as IH'.
    destruct (check_users py W users
                (dict_set u (alerts_of (check_alerts py W alerts [] s)) products)
                f (state_of (check_alerts py W alerts [] s))) as [[r2 s2] e2].
    cbn [events_of snd] in *. rewrite existsb_app, check_alerts_events.
    rewrite existsb_send_gets. cbn [orb]. apply IH'.
    intros v Hv. unfold all_settled, alerts_for.
    rewrite dict_get_set_other; [now apply Hall; right|].
    intros ->. contradiction.
  - rewrite Hrun.
    pose proof (IH products f s Hnd') as IH'.
    destruct (check_users py W users products f s) as [[r2 s2] e2].
    cbn [events_of snd app] in *. apply IH'.
    intros v Hv. apply Hall. now right.
Qed.

Lemma scheduled_price_check_run (py : Runtime) (W : World) (s : Sys) :
  scheduled_price_check py W s
  = (match result_of (check_all_prices py W None s) with
     | Return _ => Return tt
     | Raise => Raise
     end,
     state_of (check_all_prices py W None s),
     events_of (check_all_prices py W None s)).
Proof.
  unfold scheduled_price_check, bind.
  destruct (check_all_prices py W None s) as [[[r|] s1] e1];
    cbn; now rewrite ?app_nil_r.
Qed.

Lemma quiet_cycle (py : Runtime) (W : World) (s : Sys) (products : Products) :
  loaded (disk s) = Some products ->
  NoDup (keys products) ->
  (forall u, all_settled products u) ->
  disk (state_of (scheduled_price_check py W s)) = disk s
  /\ sends (events_of (scheduled_price_check py W s)) = 0
  /\ saves (events_of (scheduled_price_check py W s)) = 0
  /\ result_of (scheduled_price_check py W s) = Return tt.
Proof.
  intros Hload Hnd Hall. rewrite scheduled_price_check_run.
  destruct (cycle_shape py W None s Hload)
    as (p & f & s1 & e1 & Hrun & Hd & Hs & Hf & _ & _ & Hcycle).
  pose proof (check_users_settled py W (users_to_check None products) products
                false s Hnd (fun u _ => Hall u)) as Hquiet.
  rewrite Hrun in Hquiet. cbn [events_of snd] in Hquiet.
  rewrite Hquiet in Hf. subst f. rewrite Hcycle.
  cbn [state_of events_of result_of fst snd].
  destruct (scan_send_crossings Hs) as (_ & Hsome & _).
  repeat split; auto using scan_no_save.
  destruct (sends e1) eqn:E; [reflexivity|].
  assert (existsb is_send e1 = true) by (apply Hsome; lia). congruence.
Qed.

(** X15: once every stored price is at or below its target, the
    scheduled checks never notify and never save again, however many of
    them run and whatever prices they fetch: the file stays as it is, so
    no later drop is ever reported for these alerts. *)
Theorem settled_store_stays_quiet (py : Runtime) (W : World) (n : nat) (s : Sys)
    (products : Products) :
  loaded (disk s) = Some products ->
  NoDup (keys products) ->
  (forall u, all_settled products u) ->
  disk (fst (repeat_check py W n s)) = disk s
  /\ sends (snd (repeat_check py W n s)) = 0
  /\ saves (snd (repeat_check py W n s)) = 0.
Proof.
  intros Hload Hnd Hall. revert s Hload.
  induction n as [|n IH]; intros s Hload; [cbn; auto|].
  cbn [repeat_check].
  destruct (quiet_cycle py W s products Hload Hnd Hall) as (Hd & Hsend & Hsave & _).
  assert (Hload' : loaded (disk (state_of (scheduled_price_check py W s)))
                   = Some products) by (now rewrite Hd).
  destruct (IH _ Hload') as (Hd' & Hsend' & Hsave').
  destruct (repeat_check py W n (state_of (scheduled_price_check py W s)))
    as [s' evs].
  cbn [fst snd] in *. rewrite sends_app, saves_app.
  repeat split; [congruence | lia | lia].
Qed.

Lemma settled_store_stays_quiet_witness :
  loaded (disk (Sample.start (Stored [(Sample.alice, [Sample.phone 950 1000])])))
    = Some [(Sample.alice, [Sample.phone 950 1000])]
  /\ sends (snd (repeat_check ascii_runtime Sample.cheap 3
                   (Sample.start (Stored [(Sample.alice, [Sample.phone 950 1000])]))))
     = 0.
Proof.
  split; [reflexivity|].
  apply (settled_store_stays_quiet ascii_runtime Sample.cheap 3
           (Sample.start (Stored [(Sample.alice, [Sample.phone 950 1000])]))
           [(Sample.alice, [Sample.phone 950 1000])] eq_refl).
  - repeat constructor. intros [].
  - intros u. unfold all_settled, alerts_for. cbn [dict_get].
    destruct (str_eqb u Sample.alice); repeat constructor.
    unfold settled. cbn. lia.
Defined.

(** A price that went up to 1200 in one check and came down to 950 in
    the next is not reported: the file never saw the 1200. *)
Example rise_and_fall_unreported :
  let up := Sample.shop (lit "Phone") (Sample.rupees (lit "1200")) in
  let s0 := Sample.start (Stored [(Sample.alice, [Sample.phone 950 1000])]) in
  let s1 := state_of (scheduled_price_check ascii_runtime up s0) in
  events_of (scheduled_price_check ascii_runtime up s0) = [EvGet Sample.phone_url]
  /\ disk s1 = disk s0
  /\ events_of (scheduled_price_check ascii_runtime Sample.cheap s1)
     = [EvGet Sample.phone_url].
Proof. repeat split; reflexivity. Qed.
